(** * Reno: the plan-generation contract and the dashboard, verified

    A shallow embedding of the renovation planner's service layer
    ([services/geminiService.ts]), of the dashboard's per-phase asset
    handlers ([components/Dashboard.tsx]) and of the application shell
    ([App.tsx], [components/Button.tsx], [components/Moodboard.tsx]).

    - JavaScript strings are sequences of UTF-16 code units.
    - JavaScript numbers are IEEE-754 binary64 values ([spec_float] with
      precision 53 and maximal exponent 1024).
    - [JSON.parse] is modelled by a recursive-descent reader of the JSON
      grammar followed by the rounding of every numeric literal to the
      nearest Number.
    - Asynchronous functions are programs with explicit suspension points
      ([Await]); what they do between two suspension points is atomic, as
      in the single-threaded event loop of the browser.
    - The SDK client is taken to be constructed; what the generative
      service and the host hook answer is given by a [Host]. *)

From Stdlib Require Import ZArith NArith List String Ascii Bool Lia.
From Stdlib Require Import Floats.SpecFloat.
From stdpp Require Import prelude gmap.

Set Default Proof Using "Type".
Set Warnings "-register-all".

(* ===================================================================== *)
(** * JavaScript values *)
(* ===================================================================== *)

(** A string is a sequence of 16-bit code units. *)
Definition jsstring : Type := list N.

(** The code units of an ASCII literal. *)
Definition js (s : string) : jsstring :=
  map N_of_ascii (list_ascii_of_string s).

Arguments js : simpl never.

(** A Number is a binary64 value. *)
Definition number : Type := spec_float.

Definition prec64 : Z := 53.
Definition emax64 : Z := 1024.

(** A numeric literal of a JSON text, read exactly: the value is
    [(-1)^neg * digits * 10^exp10]. *)
Record numeral : Type := Numeral {
  num_neg : bool;
  num_digits : Z;
  num_exp10 : Z
}.

(** JSON trees, over the type of their numbers: [json numeral] is a text
    read exactly, [json number] is the value [JSON.parse] returns.  An
    object is the list of its properties in creation order, with no key
    twice. *)
Inductive json (X : Type) : Type :=
| JNull
| JBool (b : bool)
| JNum (x : X)
| JStr (s : jsstring)
| JArr (items : list (json X))
| JObj (props : list (jsstring * json X)).

Arguments JNull {X}.
Arguments JBool {X} b.
Arguments JNum {X} x.
Arguments JStr {X} s.
Arguments JArr {X} items.
Arguments JObj {X} props.

Definition JSValue : Type := json number.

(** Property read [o.key]; [None] is [undefined]. *)
Fixpoint assoc {V : Type} (key : jsstring) (props : list (jsstring * V)) : option V :=
  match props with
  | [] => None
  | (k, v) :: rest => if decide (k = key) then Some v else assoc key rest
  end.

Definition get {X : Type} (key : jsstring) (v : json X) : option (json X) :=
  match v with
  | JObj props => assoc key props
  | _ => None
  end.

(** Property definition: an existing key keeps its place and takes the new
    value, a new key goes last. *)
Fixpoint obj_set {V : Type} (key : jsstring) (v : V) (props : list (jsstring * V))
  : list (jsstring * V) :=
  match props with
  | [] => [(key, v)]
  | (k, w) :: rest =>
      if decide (k = key) then (k, v) :: rest else (k, w) :: obj_set key v rest
  end.

(** The map over the numbers of a tree. *)
Fixpoint json_map {X Y : Type} (f : X -> Y) (v : json X) : json Y :=
  match v with
  | JNull => JNull
  | JBool b => JBool b
  | JNum x => JNum (f x)
  | JStr s => JStr s
  | JArr items => JArr (map (json_map f) items)
  | JObj props => JObj (map (fun kv => (fst kv, json_map f (snd kv))) props)
  end.

(** The numeric literals of a tree, left to right. *)
Fixpoint numerals {X : Type} (v : json X) : list X :=
  match v with
  | JNum x => [x]
  | JArr items => concat (map numerals items)
  | JObj props => concat (map (fun kv => numerals (snd kv)) props)
  | _ => []
  end.

(* ===================================================================== *)
(** * Numbers: from a decimal literal to the nearest binary64 *)
(* ===================================================================== *)

(** The Number value of a literal: the binary64 nearest to
    [digits * 10^exp10], ties to even, overflow to infinity.  A
    non-negative power of ten gives an integer, rounded by
    [binary_normalize]; a negative one gives a quotient of two integers,
    rounded from its quotient, remainder and location. *)
Definition Number_of (n : numeral) : number :=
  let M := num_digits n in
  let E := num_exp10 n in
  if (M =? 0)%Z then S754_zero (num_neg n)
  else if (0 <=? E)%Z then
    binary_normalize prec64 emax64 (cond_Zopp (num_neg n) (M * 10 ^ E)) 0 (num_neg n)
  else
    let '(q, e, l) := SFdiv_core_binary prec64 emax64 M 0 (10 ^ (- E)) 0 in
    binary_round_aux prec64 emax64 (num_neg n) q e l.

(** [represents x n]: the Number [x] has exactly the value of the literal
    [n].  Both sides are cleared of negative powers before they are
    compared. *)
Definition represents (x : number) (n : numeral) : bool :=
  match x with
  | S754_zero _ => (num_digits n =? 0)%Z
  | S754_finite s m e =>
      Bool.eqb s (num_neg n) &&
      (Z.pos m * 2 ^ Z.max e 0 * 10 ^ Z.max (- num_exp10 n) 0
       =? num_digits n * 10 ^ Z.max (num_exp10 n) 0 * 2 ^ Z.max (- e) 0)%Z
  | _ => false
  end.

(** A literal is exactly representable when its Number has its value. *)
Definition exactly_representable (n : numeral) : bool :=
  represents (Number_of n) n.

(** The Number of an integer. *)
Definition Number_of_Z (z : Z) : number :=
  Number_of (Numeral (z <? 0)%Z (Z.abs z) 0).


(* ===================================================================== *)
(** * [JSON.parse]: the reader of JSON texts *)
(* ===================================================================== *)

(** Why a text is rejected; [JSON.parse] throws a [SyntaxError] for each. *)
Inductive SyntaxIssue : Type :=
| UnexpectedEnd
| UnexpectedToken (c : N).

(** The result of reading a prefix of a text: the value read and the rest
    of the text, a syntax error, or a recursion budget that ran out (the
    budget [JSON_read] gives never does, see [read_value_fuel]). *)
Inductive Parsed (A : Type) : Type :=
| Ok (a : A) (rest : jsstring)
| Bad (why : SyntaxIssue)
| Starved.

Arguments Ok {A} a rest.
Arguments Bad {A} why.
Arguments Starved {A}.

Notation "'do' x , r <- e ; k" :=
  (match e with Ok x r => k | Bad why => Bad why | Starved => Starved end)
  (at level 10, x name, r name, e at level 100, k at level 200).

(** Code units of the grammar's punctuation. *)
Definition quote : N := 34.
Definition backslash : N := 92.

(** White space of the JSON grammar: space, tab, line feed, carriage
    return. *)
Definition is_ws (c : N) : bool :=
  ((c =? 32) || (c =? 9) || (c =? 10) || (c =? 13))%N.

Fixpoint skip_ws (s : jsstring) : jsstring :=
  match s with
  | c :: r => if is_ws c then skip_ws r else s
  | [] => []
  end.

Definition is_digit (c : N) : bool := ((48 <=? c) && (c <=? 57))%N.

Definition hex_val (c : N) : option N :=
  if is_digit c then Some (c - 48)%N
  else if ((97 <=? c) && (c <=? 102))%N then Some (c - 87)%N
  else if ((65 <=? c) && (c <=? 70))%N then Some (c - 55)%N
  else None.

(** The single-character escapes: quote, backslash, slash, b, f, n, r, t. *)
Definition unescape (c : N) : option N :=
  if (c =? quote)%N then Some quote
  else if (c =? backslash)%N then Some backslash
  else if (c =? 47)%N then Some 47%N
  else if (c =? 98)%N then Some 8%N
  else if (c =? 102)%N then Some 12%N
  else if (c =? 110)%N then Some 10%N
  else if (c =? 114)%N then Some 13%N
  else if (c =? 116)%N then Some 9%N
  else None.

(** A string, from after its opening quote to its closing quote. *)
Fixpoint read_string (s : jsstring) (acc : jsstring) : Parsed jsstring :=
  match s with
  | [] => Bad UnexpectedEnd
  | c :: r =>
      if (c =? quote)%N then Ok (rev acc) r
      else if (c =? backslash)%N then
        match r with
        | [] => Bad UnexpectedEnd
        | e :: r1 =>
            if (e =? 117)%N then
              match r1 with
              | h1 :: h2 :: h3 :: h4 :: r2 =>
                  match hex_val h1, hex_val h2, hex_val h3, hex_val h4 with
                  | Some a, Some b, Some c, Some d =>
                      read_string r2 ((((a * 16 + b) * 16 + c) * 16 + d)%N :: acc)
                  | _, _, _, _ => Bad (UnexpectedToken h1)
                  end
              | _ => Bad UnexpectedEnd
              end
            else
              match unescape e with
              | Some u => read_string r1 (u :: acc)
              | None => Bad (UnexpectedToken e)
              end
        end
      else if (c <? 32)%N then Bad (UnexpectedToken c)
      else read_string r (c :: acc)
  end.

(** A run of decimal digits: its value on top of [acc], how many digits it
    has, and the rest. *)
Fixpoint read_digits (s : jsstring) (acc : Z) (count : Z) : Z * Z * jsstring :=
  match s with
  | c :: r =>
      if is_digit c then read_digits r (acc * 10 + Z.of_N (c - 48))%Z (count + 1)%Z
      else (acc, count, s)
  | [] => (acc, count, [])
  end.

Definition issue_at (s : jsstring) : SyntaxIssue :=
  match s with
  | [] => UnexpectedEnd
  | c :: _ => UnexpectedToken c
  end.

(** The integer part: a single [0], or a non-zero digit and more digits. *)
Definition read_int (s : jsstring) : Parsed Z :=
  match s with
  | [] => Bad UnexpectedEnd
  | c :: r =>
      if (c =? 48)%N then Ok 0%Z r
      else if is_digit c then
        let '(v, _, r') := read_digits s 0 0 in Ok v r'
      else Bad (UnexpectedToken c)
  end.

(** The optional fraction: the digits go on top of the integer part, and
    their number is returned with them. *)
Definition read_frac (s : jsstring) (m : Z) : Parsed (Z * Z) :=
  match s with
  | c :: r =>
      if (c =? 46)%N then
        let '(v, k, r') := read_digits r m 0 in
        if (k =? 0)%Z then Bad (issue_at r) else Ok (v, k) r'
      else Ok (m, 0%Z) s
  | [] => Ok (m, 0%Z) []
  end.

(** The optional exponent. *)
Definition read_exp (s : jsstring) : Parsed Z :=
  match s with
  | c :: r =>
      if ((c =? 101) || (c =? 69))%N then
        let '(neg, r1) :=
          match r with
          | d :: r' =>
              if (d =? 45)%N then (true, r')
              else if (d =? 43)%N then (false, r') else (false, r)
          | [] => (false, r)
          end in
        let '(v, k, r2) := read_digits r1 0 0 in
        if (k =? 0)%Z then Bad (issue_at r1) else Ok (if neg then - v else v)%Z r2
      else Ok 0%Z s
  | [] => Ok 0%Z []
  end.

Definition read_number (s : jsstring) : Parsed numeral :=
  let '(neg, s1) :=
    match s with
    | c :: r => if (c =? 45)%N then (true, r) else (false, s)
    | [] => (false, s)
    end in
  do i, s2 <- read_int s1 ;
  do mk, s3 <- read_frac s2 i ;
  do e, s4 <- read_exp s3 ;
  Ok (Numeral neg (fst mk) (e - snd mk)) s4.

(** The rest of a keyword whose first letter has been read. *)
Fixpoint keyword {A : Type} (w : jsstring) (a : A) (s : jsstring) : Parsed A :=
  match w with
  | [] => Ok a s
  | x :: w' =>
      match s with
      | c :: r => if (c =? x)%N then keyword w' a r else Bad (UnexpectedToken c)
      | [] => Bad UnexpectedEnd
      end
  end.

(** Values, the elements of an array after its bracket and the members of
    an object after its brace. *)
Fixpoint read_value (fuel : nat) (s : jsstring) {struct fuel} : Parsed (json numeral) :=
  match fuel with
  | O => Starved
  | S fuel =>
      match skip_ws s with
      | [] => Bad UnexpectedEnd
      | c :: r =>
          if (c =? 123)%N then
            match skip_ws r with
            | c' :: r' =>
                if (c' =? 125)%N then Ok (JObj []) r'
                else do props, r2 <- read_members fuel (c' :: r') [] ; Ok (JObj props) r2
            | [] => Bad UnexpectedEnd
            end
          else if (c =? 91)%N then
            match skip_ws r with
            | c' :: r' =>
                if (c' =? 93)%N then Ok (JArr []) r'
                else do items, r2 <- read_elements fuel (c' :: r') [] ; Ok (JArr items) r2
            | [] => Bad UnexpectedEnd
            end
          else if (c =? quote)%N then
            do str, r2 <- read_string r [] ; Ok (JStr str) r2
          else if (c =? 116)%N then keyword (js "rue") (JBool true) r
          else if (c =? 102)%N then keyword (js "alse") (JBool false) r
          else if (c =? 110)%N then keyword (js "ull") JNull r
          else if ((c =? 45)%N || is_digit c) then
            do n, r2 <- read_number (c :: r) ; Ok (JNum n) r2
          else Bad (UnexpectedToken c)
      end
  end
with read_elements (fuel : nat) (s : jsstring) (acc : list (json numeral))
  {struct fuel} : Parsed (list (json numeral)) :=
  match fuel with
  | O => Starved
  | S fuel =>
      do v, r <- read_value fuel s ;
      match skip_ws r with
      | c :: r' =>
          if (c =? 44)%N then read_elements fuel r' (v :: acc)
          else if (c =? 93)%N then Ok (rev (v :: acc)) r'
          else Bad (UnexpectedToken c)
      | [] => Bad UnexpectedEnd
      end
  end
with read_members (fuel : nat) (s : jsstring) (acc : list (jsstring * json numeral))
  {struct fuel} : Parsed (list (jsstring * json numeral)) :=
  match fuel with
  | O => Starved
  | S fuel =>
      match skip_ws s with
      | c :: r =>
          if (c =? quote)%N then
            do key, r1 <- read_string r [] ;
            match skip_ws r1 with
            | c1 :: r2 =>
                if (c1 =? 58)%N then
                  do v, r3 <- read_value fuel r2 ;
                  match skip_ws r3 with
                  | c3 :: r4 =>
                      if (c3 =? 44)%N then read_members fuel r4 (obj_set key v acc)
                      else if (c3 =? 125)%N then Ok (obj_set key v acc) r4
                      else Bad (UnexpectedToken c3)
                  | [] => Bad UnexpectedEnd
                  end
                else Bad (UnexpectedToken c1)
            | [] => Bad UnexpectedEnd
            end
          else Bad (UnexpectedToken c)
      | [] => Bad UnexpectedEnd
      end
  end.

(** A budget that is enough for a text of this length. *)
Definition fuel_for (text : jsstring) : nat := 2 * length text + 2.

(** The exact reading of a whole text: one value, white space around it,
    nothing else. *)
Definition JSON_read (text : jsstring) : SyntaxIssue + json numeral :=
  match read_value (fuel_for text) text with
  | Ok v r =>
      match skip_ws r with
      | [] => inr v
      | c :: _ => inl (UnexpectedToken c)
      end
  | Bad why => inl why
  | Starved => inl UnexpectedEnd
  end.

(** [JSON.parse(text)]: the text read exactly, each numeric literal
    replaced by its Number. *)
Definition JSON_parse (text : jsstring) : SyntaxIssue + JSValue :=
  match JSON_read text with
  | inr tree => inr (json_map Number_of tree)
  | inl why => inl why
  end.

(* ===================================================================== *)
(** * The output schema declared with the plan request *)
(* ===================================================================== *)

Inductive Schema : Type :=
| TString
| TNumber
| TArray (items : Schema)
| TObject (properties : list (jsstring * Schema)) (required : list jsstring).

Definition responseSchema : Schema :=
  TObject
    [ (js "summary", TString);
      (js "buildingStyle", TString);
      (js "phases",
        TArray (TObject
          [ (js "name", TString); (js "durationWeeks", TNumber);
            (js "costEstimate", TNumber); (js "description", TString) ]
          [ js "name"; js "durationWeeks"; js "costEstimate"; js "description" ]));
      (js "roiProjection",
        TArray (TObject
          [ (js "year", TNumber); (js "value", TNumber) ]
          [ js "year"; js "value" ]));
      (js "co2Savings",
        TArray (TObject
          [ (js "category", TString); (js "savingTons", TNumber);
            (js "description", TString) ]
          [ js "category"; js "savingTons"; js "description" ]));
      (js "funding",
        TArray (TObject
          [ (js "name", TString); (js "amount", TString); (js "description", TString) ]
          [ js "name"; js "amount"; js "description" ]));
      (js "totalCost", TNumber);
      (js "totalDuration", TNumber) ]
    [ js "summary"; js "phases"; js "roiProjection"; js "co2Savings"; js "funding";
      js "totalCost"; js "totalDuration"; js "buildingStyle" ].

(** Validity against a schema: the value has the declared type, an array's
    items are valid, an object has every required property and each
    declared property it has is valid.  The service is asked to answer
    within the schema; the client itself never runs this check. *)
Fixpoint conforms {X : Type} (sch : Schema) (v : json X) {struct sch} : bool :=
  match sch, v with
  | TString, JStr _ => true
  | TNumber, JNum _ => true
  | TArray it, JArr items => forallb (conforms it) items
  | TObject properties required, JObj props =>
      forallb (fun k => bool_decide (is_Some (assoc k props))) required &&
      forallb (fun ks : jsstring * Schema =>
                 match assoc (fst ks) props with
                 | Some w => conforms (snd ks) w
                 | None => true
                 end) properties
  | _, _ => false
  end.

(* ===================================================================== *)
(** * Failures *)
(* ===================================================================== *)

(** Why a promise of the generative service or of the host environment is
    rejected.  These reasons are made outside this code base. *)
Inductive ExternalFailure : Type :=
| AuthFailure
| QuotaFailure
| NetworkFailure
| OtherFailure (detail : jsstring).

(** What the code can throw: an [Error] it makes itself, the [SyntaxError]
    of [JSON.parse], or the reason of an awaited promise that was
    rejected. *)
Inductive Thrown : Type :=
| JsError (message : jsstring)
| JsSyntaxError (why : SyntaxIssue)
| Rejection (reason : ExternalFailure).

Inductive Settled (A : Type) : Type :=
| Fulfilled (a : A)
| Rejected (reason : ExternalFailure).

Arguments Fulfilled {A} a.
Arguments Rejected {A} reason.

Inductive Outcome (A : Type) : Type :=
| Returned (a : A)
| Threw (e : Thrown).

Arguments Returned {A} a.
Arguments Threw {A} e.

(* ===================================================================== *)
(** * The data model ([types.ts]) and the service's messages *)
(* ===================================================================== *)

Record PropertyDetails : Type := {
  address : jsstring;
  sqm : number;
  budget : number;
  currentEfficiency : jsstring
}.

Record File : Type := { file_name : jsstring; file_type : jsstring }.

Record ImageAsset : Type := {
  id : jsstring;
  file : File;
  previewUrl : jsstring;
  base64 : jsstring;
  type : jsstring
}.

Record Blob : Type := { mimeType : option jsstring; data : option jsstring }.

Record Part : Type := { inlineData : option Blob; text : option jsstring }.

Record Content : Type := { parts : option (list Part) }.

Record Candidate : Type := { content : option Content }.

Record GenerateContentResponse : Type := {
  response_text : option jsstring;
  candidates : option (list Candidate)
}.

Inductive ImageSize : Type := Size1K | Size2K | Size4K.

Record ImageConfig : Type := { aspectRatio : jsstring; imageSize : ImageSize }.

Record GenerationConfig : Type := {
  responseMimeType : option jsstring;
  config_responseSchema : option Schema;
  temperature : option number;
  imageConfig : option ImageConfig
}.

Record GenerateContentParameters : Type := {
  model : jsstring;
  contents : list Part;
  config : GenerationConfig
}.

(* ===================================================================== *)
(** * Asynchronous programs *)
(* ===================================================================== *)

(** The promises the code awaits: a call of the generative service and
    the two calls of the optional host hook. *)
Inductive Call : Type :=
| GenerateContent (req : GenerateContentParameters)
| HasSelectedApiKey
| OpenSelectKey.

Definition Reply (c : Call) : Type :=
  match c with
  | GenerateContent _ => GenerateContentResponse
  | HasSelectedApiKey => bool
  | OpenSelectKey => unit
  end.

(** What the code does without suspending; [U] is the component's type of
    state updates. *)
Inductive Effect (U : Type) : Type :=
| ConsoleError (label : jsstring) (e : Thrown)
| Alert (message : jsstring)
| SetState (u : U).

Arguments ConsoleError {U} label e.
Arguments Alert {U} message.
Arguments SetState {U} u.

(** An [async] function body: it returns, throws, performs an effect and
    goes on, or suspends on a promise and goes on with what it settles
    to. *)
Inductive Prog (U A : Type) : Type :=
| Ret (a : A)
| Throw (e : Thrown)
| Do (a : Effect U) (k : Prog U A)
| Await (c : Call) (k : Settled (Reply c) -> Prog U A).

Arguments Ret {U A} a.
Arguments Throw {U A} e.
Arguments Do {U A} a k.
Arguments Await {U A} c k.

Fixpoint bind {U A B : Type} (p : Prog U A) (f : A -> Prog U B) : Prog U B :=
  match p with
  | Ret a => f a
  | Throw e => Throw e
  | Do a k => Do a (bind k f)
  | Await c k => Await c (fun x => bind (k x) f)
  end.

#[global] Instance prog_ret {U : Type} : MRet (Prog U) := fun _ a => Ret a.
#[global] Instance prog_bind {U : Type} : MBind (Prog U) := fun _ _ f p => bind p f.

(** [try { p } catch (error) { h error }] *)
Fixpoint try_catch {U A : Type} (p : Prog U A) (h : Thrown -> Prog U A) : Prog U A :=
  match p with
  | Ret a => Ret a
  | Throw e => h e
  | Do a k => Do a (try_catch k h)
  | Await c k => Await c (fun x => try_catch (k x) h)
  end.

(** [try { p } finally { q }] *)
Fixpoint finally {U A : Type} (p : Prog U A) (q : Prog U unit) : Prog U A :=
  match p with
  | Ret a => bind q (fun _ => Ret a)
  | Throw e => bind q (fun _ => Throw e)
  | Do a k => Do a (finally k q)
  | Await c k => Await c (fun x => finally (k x) q)
  end.

(** [await c]: a rejected promise throws its reason. *)
Definition await {U : Type} (c : Call) : Prog U (Reply c) :=
  Await c (fun r =>
    match r with
    | Fulfilled x => Ret x
    | Rejected reason => Throw (Rejection reason)
    end).

Definition perform {U : Type} (a : Effect U) : Prog U unit := Do a (Ret tt).

(** The environment of a run: what each awaited promise settles to. *)
Definition Host : Type := forall c : Call, Settled (Reply c).

Inductive Event (U : Type) : Type :=
| Called (c : Call)
| Did (a : Effect U).

Arguments Called {U} c.
Arguments Did {U} a.

(** A program run to its end against a host: what it did, in order, and
    how it ended. *)
Fixpoint run {U A : Type} (host : Host) (p : Prog U A) : list (Event U) * Outcome A :=
  match p with
  | Ret a => ([], Returned a)
  | Throw e => ([], Threw e)
  | Do a k => let '(tr, r) := run host k in (Did a :: tr, r)
  | Await c k => let '(tr, r) := run host (k (host c)) in (Called c :: tr, r)
  end.

(** The requests a run sent to the generative service. *)
Fixpoint requests {U : Type} (tr : list (Event U)) : list GenerateContentParameters :=
  match tr with
  | Called (GenerateContent req) :: rest => req :: requests rest
  | _ :: rest => requests rest
  | [] => []
  end.

(** The state updates a run made, applied in order. *)
Fixpoint apply_events {U S : Type} (apply : U -> S -> S) (tr : list (Event U)) (s : S) : S :=
  match tr with
  | Did (SetState u) :: rest => apply_events apply rest (apply u s)
  | _ :: rest => apply_events apply rest s
  | [] => s
  end.

(* ===================================================================== *)
(** * The service layer ([services/geminiService.ts]) *)
(* ===================================================================== *)

Definition nl : jsstring := [10%N].
Definition euro : jsstring := [8364%N].

(** The string of a possibly [undefined] string: what a template literal
    splices and what [JSON.parse] reads, since both convert their operand
    to a string first. *)
Definition template (o : option jsstring) : jsstring :=
  match o with
  | Some s => s
  | None => js "undefined"
  end.

(** [!text] on a possibly [undefined] string. *)
Definition falsy (o : option jsstring) : bool :=
  match o with
  | None | Some [] => true
  | Some (_ :: _) => false
  end.

Section Service.
Context {U : Type}.

(** The rendering of a Number inside a template literal (the built-in
    [Number::toString]); the service layer only splices its result. *)
Variable Number_toString : number -> jsstring.

Definition imageParts (images : list ImageAsset) : list Part :=
  map (fun img =>
         {| inlineData := Some {| mimeType := Some (type img); data := Some (base64 img) |};
            text := None |}) images.

Definition prompt (details : PropertyDetails) : jsstring :=
  nl ++ js "    Act as an expert renovation consultant for multifamily properties in Berlin, Germany."
  ++ nl ++ js "    Analyze the provided images of the property and the following details:"
  ++ nl ++ js "    Address: " ++ address details
  ++ nl ++ js "    Size: " ++ Number_toString (sqm details) ++ js " sqm"
  ++ nl ++ js "    Budget: " ++ euro ++ Number_toString (budget details)
  ++ nl ++ js "    Current Efficiency Class: " ++ currentEfficiency details
  ++ nl
  ++ nl ++ js "    Generate a comprehensive renovation plan that focuses on energy efficiency, ROI, and modernization."
  ++ nl ++ js "    Include specific German funding programs (KfW, BAFA) where applicable."
  ++ nl ++ js "    Provide realistic timelines and cost estimates for Berlin market rates."
  ++ nl ++ js "  ".

(** The one request of [analyzeRenovation]. *)
Definition plan_request (details : PropertyDetails) (images : list ImageAsset)
  : GenerateContentParameters :=
  {| model := js "gemini-2.5-flash";
     contents := imageParts images ++ [ {| inlineData := None; text := Some (prompt details) |} ];
     config := {| responseMimeType := Some (js "application/json");
                  config_responseSchema := Some responseSchema;
                  temperature := Some (Number_of (Numeral false 4 (-1)));
                  imageConfig := None |} |}.

Definition analyzeRenovation (details : PropertyDetails) (images : list ImageAsset)
  : Prog U JSValue :=
  try_catch
    (response ← await (GenerateContent (plan_request details images));
     let text := response_text response in
     if falsy text then Throw (JsError (js "No response from AI"))
     else
       match JSON_parse (template text) with
       | inr value => Ret value
       | inl why => Throw (JsSyntaxError why)
       end)
    (fun error =>
       Do (ConsoleError (js "Gemini Analysis Failed:") error) (Throw error)).

(** [response.candidates?.[0]?.content?.parts || []] *)
Definition candidate_parts (response : GenerateContentResponse) : list Part :=
  match candidates response with
  | Some (first :: _) =>
      match content first with
      | Some c => match parts c with Some ps => ps | None => [] end
      | None => []
      end
  | _ => []
  end.

(** The loop over the parts: the first part with inline data ends it
    with a data URL. *)
Fixpoint first_inline_url (ps : list Part) : option jsstring :=
  match ps with
  | [] => None
  | part :: rest =>
      match inlineData part with
      | Some blob => Some (js "data:image/png;base64," ++ template (data blob))
      | None => first_inline_url rest
      end
  end.

Definition fullPrompt (prompt style : jsstring) : jsstring :=
  js "Photorealistic architectural visualization of a building renovation phase in Berlin. "
  ++ nl ++ js "  Style: " ++ style ++ js ". "
  ++ nl ++ js "  Phase detail: " ++ prompt ++ js ". "
  ++ nl ++ js "  Professional architectural photography, high detail, daylight, 8k resolution.".

Definition image_request (instruction : jsstring) (size : ImageSize)
  : GenerateContentParameters :=
  {| model := js "gemini-3-pro-image-preview";
     contents := [ {| inlineData := None; text := Some instruction |} ];
     config := {| responseMimeType := None;
                  config_responseSchema := None;
                  temperature := None;
                  imageConfig := Some {| aspectRatio := js "16:9"; imageSize := size |} |} |}.

Definition generateRenovationImage (prompt style : jsstring) (size : ImageSize)
  : Prog U jsstring :=
  try_catch
    (response ← await (GenerateContent (image_request (fullPrompt prompt style) size));
     match first_inline_url (candidate_parts response) with
     | Some url => Ret url
     | None => Throw (JsError (js "No image generated"))
     end)
    (fun error =>
       Do (ConsoleError (js "Image Generation Failed:") error) (Throw error)).

Definition blueprint_fullPrompt (phaseName description style : jsstring) : jsstring :=
  js "Technical architectural blueprint drawing of a building renovation phase."
  ++ nl ++ js "  Phase: " ++ phaseName ++ js "."
  ++ nl ++ js "  Description: " ++ description ++ js "."
  ++ nl ++ js "  Building Style: " ++ style ++ js "."
  ++ nl ++ js "  Visual Style: Classic blueprint, white technical lines on blue background, schematic, precise, high contrast, top-down or isometric view.".

Definition generateBlueprintImage (phaseName description style : jsstring)
  : Prog U jsstring :=
  try_catch
    (response ← await (GenerateContent
                         (image_request (blueprint_fullPrompt phaseName description style) Size1K));
     match first_inline_url (candidate_parts response) with
     | Some url => Ret url
     | None => Throw (JsError (js "No blueprint generated"))
     end)
    (fun error =>
       Do (ConsoleError (js "Blueprint Generation Failed:") error) (Throw error)).

End Service.

(* ===================================================================== *)
(** * The event loop *)
(* ===================================================================== *)

(** Handlers run on a single thread: a handler runs until it suspends on
    a promise or ends, and is resumed when the promise settles.  Between
    two suspensions its state updates are applied without interruption. *)
Section EventLoop.
Context {U S : Type}.
Variable apply : U -> S -> S.

Fixpoint advance (p : Prog U unit) (s : S) : S * Prog U unit :=
  match p with
  | Do (SetState u) k => advance k (apply u s)
  | Do _ k => advance k s
  | _ => (s, p)
  end.

Definition suspended (p : Prog U unit) : bool :=
  match p with
  | Await _ _ => true
  | _ => false
  end.

(** The component's state and the handlers that wait for a promise. *)
Record Loop : Type := { state : S; pending : list (Prog U unit) }.

Definition park (p : Prog U unit) (waiting : list (Prog U unit)) : list (Prog U unit) :=
  if suspended p then waiting ++ [p] else waiting.

(** A handler is called. *)
Definition spawn (p : Prog U unit) (l : Loop) : Loop :=
  let '(s, p') := advance p (state l) in
  {| state := s; pending := park p' (pending l) |}.

(** The promise of the [i]-th waiting handler settles. *)
Definition settle (i : nat) (host : Host) (l : Loop) : option Loop :=
  match pending l !! i with
  | Some (Await c k) =>
      let '(s, p') := advance (k (host c)) (state l) in
      Some {| state := s; pending := park p' (delete i (pending l)) |}
  | _ => None
  end.
End EventLoop.

Arguments Loop : clear implicits.
Arguments state {U S} l.
Arguments pending {U S} l.

(* ===================================================================== *)
(** * The dashboard ([components/Dashboard.tsx]) *)
(* ===================================================================== *)

Record RenovationPhase : Type := {
  phase_name : jsstring;
  durationWeeks : number;
  costEstimate : number;
  phase_description : jsstring
}.

Record RoiMetric : Type := { year : number; value : number }.

Record Co2Metric : Type := {
  category : jsstring;
  savingTons : number;
  co2_description : jsstring
}.

Record FundingBadge : Type := {
  funding_name : jsstring;
  amount : jsstring;
  funding_description : jsstring
}.

Record RenovationPlan : Type := {
  summary : jsstring;
  buildingStyle : jsstring;
  phases : list RenovationPhase;
  roiProjection : list RoiMetric;
  co2Savings : list Co2Metric;
  funding : list FundingBadge;
  totalCost : number;
  totalDuration : number
}.

(** [window.aistudio], when the host provides it, and whether it has the
    [hasSelectedApiKey] method the code tests for. *)
Record AIStudio : Type := { has_hasSelectedApiKey : bool }.

Record Window : Type := { aistudio : option AIStudio }.

Module Dashboard.

(** A mounted dashboard: its props and its state variables. *)
Record t : Type := {
  plan : RenovationPlan;
  details : PropertyDetails;
  imageSize : ImageSize;
  phaseImages : gmap nat jsstring;
  generatingPhase : gmap nat bool;
  blueprints : gmap nat jsstring;
  generatingBlueprint : gmap nat bool
}.

(** The state setters the handlers call, with their updater. *)
Inductive Update : Type :=
| setImageSize (v : ImageSize)
| setPhaseImages (f : gmap nat jsstring -> gmap nat jsstring)
| setGeneratingPhase (f : gmap nat bool -> gmap nat bool)
| setBlueprints (f : gmap nat jsstring -> gmap nat jsstring)
| setGeneratingBlueprint (f : gmap nat bool -> gmap nat bool).

Definition apply (u : Update) (d : t) : t :=
  match u with
  | setImageSize v =>
      {| plan := plan d; details := details d; imageSize := v;
         phaseImages := phaseImages d; generatingPhase := generatingPhase d;
         blueprints := blueprints d; generatingBlueprint := generatingBlueprint d |}
  | setPhaseImages f =>
      {| plan := plan d; details := details d; imageSize := imageSize d;
         phaseImages := f (phaseImages d); generatingPhase := generatingPhase d;
         blueprints := blueprints d; generatingBlueprint := generatingBlueprint d |}
  | setGeneratingPhase f =>
      {| plan := plan d; details := details d; imageSize := imageSize d;
         phaseImages := phaseImages d; generatingPhase := f (generatingPhase d);
         blueprints := blueprints d; generatingBlueprint := generatingBlueprint d |}
  | setBlueprints f =>
      {| plan := plan d; details := details d; imageSize := imageSize d;
         phaseImages := phaseImages d; generatingPhase := generatingPhase d;
         blueprints := f (blueprints d); generatingBlueprint := generatingBlueprint d |}
  | setGeneratingBlueprint f =>
      {| plan := plan d; details := details d; imageSize := imageSize d;
         phaseImages := phaseImages d; generatingPhase := generatingPhase d;
         blueprints := blueprints d; generatingBlueprint := f (generatingBlueprint d) |}
  end.

(** A dashboard as it is mounted. *)
Definition mount (p : RenovationPlan) (d : PropertyDetails) : t :=
  {| plan := p; details := d; imageSize := Size1K;
     phaseImages := ∅; generatingPhase := ∅;
     blueprints := ∅; generatingBlueprint := ∅ |}.

Definition set (u : Update) : Prog Update unit := perform (SetState u).

Definition checkApiKey (window : Window) : Prog Update bool :=
  match aistudio window with
  | Some studio =>
      if has_hasSelectedApiKey studio then
        hasKey ← await HasSelectedApiKey;
        if negb hasKey then
          try_catch
            (_ ← await OpenSelectKey; Ret true)
            (fun e => Do (ConsoleError (js "Failed to select key") e) (Ret false))
        else Ret true
      else Ret true
  | None => Ret true
  end.

(** The handlers close over the props and state of the render they were
    made in: [d] is that render. *)
Definition handleGenerateImage (window : Window) (d : t) (index : nat) (description : jsstring)
  : Prog Update unit :=
  ok ← checkApiKey window;
  if negb ok then Ret tt
  else
    _ ← set (setGeneratingPhase (fun prev => <[index := true]> prev));
    finally
      (try_catch
         (imageUrl ← generateRenovationImage description (buildingStyle (plan d)) (imageSize d);
          set (setPhaseImages (fun prev => <[index := imageUrl]> prev)))
         (fun error =>
            Do (ConsoleError (js "Failed to generate image") error)
               (perform (Alert (js "Could not generate image. Please ensure you have a valid paid API key selected.")))))
      (set (setGeneratingPhase (fun prev => <[index := false]> prev))).

Definition handleGenerateBlueprint (window : Window) (d : t) (index : nat)
    (name description : jsstring) : Prog Update unit :=
  ok ← checkApiKey window;
  if negb ok then Ret tt
  else
    _ ← set (setGeneratingBlueprint (fun prev => <[index := true]> prev));
    finally
      (try_catch
         (imageUrl ← generateBlueprintImage name description (buildingStyle (plan d));
          set (setBlueprints (fun prev => <[index := imageUrl]> prev)))
         (fun error =>
            Do (ConsoleError (js "Failed to generate blueprint") error)
               (perform (Alert (js "Could not generate blueprint.")))))
      (set (setGeneratingBlueprint (fun prev => <[index := false]> prev))).

(** What the dashboard holds for one phase index. *)
Definition slot (d : t) (j : nat) : option jsstring * option bool * option jsstring * option bool :=
  (phaseImages d !! j, generatingPhase d !! j, blueprints d !! j, generatingBlueprint d !! j).

End Dashboard.

(* ===================================================================== *)
(** * The shared button ([components/Button.tsx]) *)
(* ===================================================================== *)

Module Button.

(** [<button disabled={isLoading || props.disabled} {...props}>]: the
    attribute is computed first and the remaining props are spread
    after it, so a [disabled] passed by the caller replaces the computed
    one.  [None] is a prop that was not passed. *)
Definition disabled (isLoading : option bool) (props_disabled : option bool) : bool :=
  let computed := default false isLoading || default false props_disabled in
  match props_disabled with
  | Some d => d
  | None => computed
  end.

End Button.

(* ===================================================================== *)
(** * The application shell ([App.tsx], [components/Moodboard.tsx]) *)
(* ===================================================================== *)

(** Truthiness of a value, for [plan && ...]. *)
Definition truthy (v : JSValue) : bool :=
  match v with
  | JNull => false
  | JBool b => b
  | JNum (S754_zero _) | JNum S754_nan => false
  | JNum _ => true
  | JStr s => negb (bool_decide (s = []))
  | JArr _ | JObj _ => true
  end.

Module App.

Record t : Type := {
  step : nat;
  isLoading : bool;
  error : option jsstring;
  images : list ImageAsset;
  details : PropertyDetails;
  plan : option JSValue
}.

Inductive Update : Type :=
| setStep (n : nat)
| setIsLoading (b : bool)
| setError (e : option jsstring)
| setImages (f : list ImageAsset -> list ImageAsset)
| setDetails (d : PropertyDetails)
| setPlan (p : option JSValue).

Definition apply (u : Update) (s : t) : t :=
  match u with
  | setStep n =>
      {| step := n; isLoading := isLoading s; error := error s;
         images := images s; details := details s; plan := plan s |}
  | setIsLoading b =>
      {| step := step s; isLoading := b; error := error s;
         images := images s; details := details s; plan := plan s |}
  | setError e =>
      {| step := step s; isLoading := isLoading s; error := e;
         images := images s; details := details s; plan := plan s |}
  | setImages f =>
      {| step := step s; isLoading := isLoading s; error := error s;
         images := f (images s); details := details s; plan := plan s |}
  | setDetails d =>
      {| step := step s; isLoading := isLoading s; error := error s;
         images := images s; details := d; plan := plan s |}
  | setPlan p =>
      {| step := step s; isLoading := isLoading s; error := error s;
         images := images s; details := details s; plan := p |}
  end.

Definition defaults : PropertyDetails :=
  {| address := []; sqm := Number_of_Z 500; budget := Number_of_Z 250000;
     currentEfficiency := js "E" |}.

(** The state of the first render. *)
Definition initial : t :=
  {| step := 1; isLoading := false; error := None;
     images := []; details := defaults; plan := None |}.

Definition set (u : Update) : Prog Update unit := perform (SetState u).

Section Handlers.
Variable Number_toString : number -> jsstring.

(** [s] is the render the handler was made in. *)
Definition handleAnalysis (s : t) : Prog Update unit :=
  if bool_decide (length (images s) = 0) then
    set (setError (Some (js "Please upload at least one image.")))
  else if bool_decide (address (details s) = []) then
    set (setError (Some (js "Please enter an address.")))
  else
    _ ← set (setIsLoading true);
    _ ← set (setError None);
    finally
      (try_catch
         (generatedPlan ← analyzeRenovation Number_toString (details s) (images s);
          _ ← set (setPlan (Some generatedPlan));
          set (setStep 3))
         (fun err =>
            set (setError (Some (js "Failed to generate plan. Please try again or check your API Key.")))))
      (set (setIsLoading false)).

Definition handleReset : Prog Update unit :=
  _ ← set (setStep 1);
  _ ← set (setImages (fun _ => []));
  _ ← set (setPlan None);
  set (setDetails defaults).

(** What the user and the environment can do. *)
Inductive Input : Type :=
| EditAddress (a : jsstring)
| EditSqm (x : number)
| EditBudget (x : number)
| EditEfficiency (c : jsstring)
| FileLoaded (img : ImageAsset)
| RemoveImage (image_id : jsstring)
| ClickGenerate
| ClickReset
| Settle (i : nat) (host : Host).

(** The Generate button of the form: it is passed
    [disabled={!details.address || images.length === 0}] and
    [isLoading]. *)
Definition generate_disabled (s : t) : bool :=
  Button.disabled (Some (isLoading s))
    (Some (bool_decide (address (details s) = []) || bool_decide (length (images s) = 0))).

(** The form is rendered at step 1, the dashboard with its reset link
    at step 3 when there is a plan. *)
Definition form_shown (s : t) : bool := bool_decide (step s = 1).

Definition dashboard_shown (s : t) : bool :=
  bool_decide (step s = 3) && from_option truthy false (plan s).

Definition with_details (s : t) (d : PropertyDetails) (l : Loop Update t)
  : option (Loop Update t) :=
  if form_shown s then Some (spawn apply (set (setDetails d)) l) else None.

Definition react (l : Loop Update t) (i : Input) : option (Loop Update t) :=
  let s := state l in
  match i with
  | EditAddress a =>
      with_details s {| address := a; sqm := sqm (details s); budget := budget (details s);
                        currentEfficiency := currentEfficiency (details s) |} l
  | EditSqm x =>
      with_details s {| address := address (details s); sqm := x; budget := budget (details s);
                        currentEfficiency := currentEfficiency (details s) |} l
  | EditBudget x =>
      with_details s {| address := address (details s); sqm := sqm (details s); budget := x;
                        currentEfficiency := currentEfficiency (details s) |} l
  | EditEfficiency c =>
      with_details s {| address := address (details s); sqm := sqm (details s);
                        budget := budget (details s); currentEfficiency := c |} l
  | FileLoaded img =>
      Some (spawn apply (set (setImages (fun prev => prev ++ [img]))) l)
  | RemoveImage image_id =>
      if form_shown s then
        Some (spawn apply
                (set (setImages (fun prev =>
                   filter (fun img => id img ≠ image_id) prev))) l)
      else None
  | ClickGenerate =>
      if form_shown s && negb (generate_disabled s)
      then Some (spawn apply (handleAnalysis s) l) else None
  | ClickReset =>
      if dashboard_shown s then Some (spawn apply handleReset l) else None
  | Settle i host => settle apply i host l
  end.

Fixpoint play (l : Loop Update t) (inputs : list Input) : option (Loop Update t) :=
  match inputs with
  | [] => Some l
  | i :: rest =>
      match react l i with
      | Some l' => play l' rest
      | None => None
      end
  end.

Definition start : Loop Update t := {| state := initial; pending := [] |}.

Definition reachable (l : Loop Update t) : Prop :=
  exists inputs, play start inputs = Some l.

End Handlers.

End App.

(* ===================================================================== *)
(** * Hosts, renderings and sample data for the examples *)
(* ===================================================================== *)

(** The integer a Number is, if it is one. *)
Definition integer_value (x : number) : option Z :=
  match x with
  | S754_zero _ => Some 0%Z
  | S754_finite s m e =>
      if (0 <=? e)%Z then Some (cond_Zopp s (Z.pos m * 2 ^ e))
      else if (Z.pos m mod 2 ^ (- e) =? 0)%Z then Some (cond_Zopp s (Z.pos m / 2 ^ (- e)))
      else None
  | _ => None
  end.

Fixpoint decimal_digits (fuel : nat) (n : N) (acc : jsstring) : jsstring :=
  match fuel with
  | O => acc
  | S fuel =>
      let acc' := (48 + n mod 10)%N :: acc in
      if (n / 10 =? 0)%N then acc' else decimal_digits fuel (n / 10)%N acc'
  end.

Definition decimal (n : N) : jsstring := decimal_digits (S (N.to_nat (N.log2 n))) n [].

(** [Number::toString] on the values the examples use: NaN, the
    infinities and the integers of magnitude at most 2^53, whose shortest
    digits are their decimal digits.  Every other Number needs the
    shortest-digits search and is given the empty string here; no theorem
    depends on this instance, which only serves closed examples. *)
Definition toString_safe (x : number) : jsstring :=
  match x with
  | S754_nan => js "NaN"
  | S754_infinity false => js "Infinity"
  | S754_infinity true => js "-Infinity"
  | _ =>
      match integer_value x with
      | Some n =>
          if (Z.abs n <=? 2 ^ 53)%Z then
            (if (n <? 0)%Z then js "-" else []) ++ decimal (Z.to_N (Z.abs n))
          else []
      | None => []
      end
  end.

(** A host whose promises are all rejected for the same reason. *)
Definition rejecting (reason : ExternalFailure) : Host := fun _ => Rejected reason.

(** A host whose service answers [response] and whose credential hook
    reports [hasKey] and lets the user select a key. *)
Definition answering (response : GenerateContentResponse) (hasKey : bool) : Host :=
  fun c =>
    match c return Settled (Reply c) with
    | GenerateContent _ => Fulfilled response
    | HasSelectedApiKey => Fulfilled hasKey
    | OpenSelectKey => Fulfilled tt
    end.

(** A reply of the plan service with this text. *)
Definition text_response (t : option jsstring) : GenerateContentResponse :=
  {| response_text := t; candidates := None |}.

(** A reply of the image service with these candidates, each given by its
    parts. *)
Definition parts_response (cands : list (list Part)) : GenerateContentResponse :=
  {| response_text := None;
     candidates := Some (map (fun ps => {| content := Some {| parts := Some ps |} |}) cands) |}.

Definition text_part (s : jsstring) : Part := {| inlineData := None; text := Some s |}.

Definition inline_part (mime payload : option jsstring) : Part :=
  {| inlineData := Some {| mimeType := mime; data := payload |}; text := None |}.

(** A JSON text written with an apostrophe for each quote. *)
Definition json_text (s : string) : jsstring :=
  map (fun c => if (c =? 39)%N then quote else c) (js s).

Local Infix "+:+" := String.append (at level 60, right associativity).

(** The sample plan with another literal for its total cost. *)
Definition plan_text_with_total (total : string) : jsstring :=
  json_text ("{'summary':'Insulate, then replace the heating.','buildingStyle':'Altbau','phases':[{'name':'Facade','durationWeeks':10,'costEstimate':80000,'description':'Insulate the facade'},{'name':'Heating','durationWeeks':16,'costEstimate':100000,'description':'Install a heat pump'}],'roiProjection':[{'year':1,'value':2.5},{'year':5,'value':14}],'co2Savings':[{'category':'Heating','savingTons':12,'description':'Heat pump'}],'funding':[{'name':'KfW 261','amount':'Max 150k','description':'Efficiency loan'}],'totalCost':"
             +:+ total +:+ ",'totalDuration':26}")%string.

Definition sample_plan_text : jsstring := plan_text_with_total "180000".

(** A total cost of 2^53 + 1, which no binary64 value has. *)
Definition unsafe_total_text : jsstring := plan_text_with_total "9007199254740993".

(** A reply of the image service with two candidates: the first has only
    text, the second has the image. *)
Definition image_in_second_candidate : GenerateContentResponse :=
  parts_response
    [ [ text_part (js "Here is the rendering.") ];
      [ inline_part (Some (js "image/png")) (Some (js "iVBORw0KGgo")) ] ].

(** A reply of the image service with a JPEG payload after a text part. *)
Definition jpeg_after_text : GenerateContentResponse :=
  parts_response
    [ [ text_part (js "Here is the rendering.");
        inline_part (Some (js "image/jpeg")) (Some (js "/9j/4AAQSkZJRg"));
        inline_part (Some (js "image/png")) (Some (js "iVBORw0KGgo")) ] ].

(** The sample plan as the dashboard is given it. *)
Definition sample_plan : RenovationPlan :=
  {| summary := js "Insulate, then replace the heating.";
     buildingStyle := js "Altbau";
     phases :=
       [ {| phase_name := js "Facade"; durationWeeks := Number_of_Z 10;
            costEstimate := Number_of_Z 80000;
            phase_description := js "Insulate the facade" |};
         {| phase_name := js "Heating"; durationWeeks := Number_of_Z 16;
            costEstimate := Number_of_Z 100000;
            phase_description := js "Install a heat pump" |} ];
     roiProjection :=
       [ {| year := Number_of_Z 1; value := Number_of (Numeral false 25 (-1)) |};
         {| year := Number_of_Z 5; value := Number_of_Z 14 |} ];
     co2Savings :=
       [ {| category := js "Heating"; savingTons := Number_of_Z 12;
            co2_description := js "Heat pump" |} ];
     funding :=
       [ {| funding_name := js "KfW 261"; amount := js "Max 150k";
            funding_description := js "Efficiency loan" |} ];
     totalCost := Number_of_Z 180000;
     totalDuration := Number_of_Z 26 |}.

(** A browser outside AI Studio: no [window.aistudio]. *)
Definition plain_window : Window := {| aistudio := None |}.

(** The scenario of the specification: Torstrasse 45 (with its sharp s),
    500 sqm, a budget of 250000, class E, one JPEG. *)
Definition berlin_details : PropertyDetails :=
  {| address := js "Torstra" ++ [223%N] ++ js "e 45, Berlin";
     sqm := Number_of_Z 500; budget := Number_of_Z 250000;
     currentEfficiency := js "E" |}.

Definition one_jpeg : ImageAsset :=
  {| id := js "k3j9x0q1z";
     file := {| file_name := js "front.jpg"; file_type := js "image/jpeg" |};
     previewUrl := js "data:image/jpeg;base64,/9j/4AAQ";
     base64 := js "/9j/4AAQ";
     type := js "image/jpeg" |}.

(** The dashboard as it is mounted for the sample plan. *)
Definition sample_dashboard : Dashboard.t := Dashboard.mount sample_plan berlin_details.

(* ===================================================================== *)
(** * Notions the properties are stated with *)
(* ===================================================================== *)

(** [needle] occurs in [hay] as it is, without a gap. *)
Definition occurs_in (needle hay : jsstring) : Prop :=
  exists before after, hay = before ++ needle ++ after.

(** A text is valid against the declared schema when it reads as JSON and
    the value read conforms to [responseSchema]. *)
Definition schema_valid (text : jsstring) : bool :=
  match JSON_read text with
  | inr tree => conforms responseSchema tree
  | inl _ => false
  end.

(** The values of a text and of a JavaScript value are the same: same
    shape, same keys in the same order, same strings and booleans, and
    each Number has exactly the value of its literal. *)
Fixpoint same_values (t : json numeral) (v : JSValue) {struct t} : bool :=
  match t, v with
  | JNull, JNull => true
  | JBool a, JBool b => Bool.eqb a b
  | JNum n, JNum x => represents x n
  | JStr a, JStr b => bool_decide (a = b)
  | JArr ts, JArr vs =>
      (fix items (ts : list (json numeral)) (vs : list JSValue) : bool :=
         match ts, vs with
         | [], [] => true
         | t' :: ts', v' :: vs' => same_values t' v' && items ts' vs'
         | _, _ => false
         end) ts vs
  | JObj tps, JObj vps =>
      (fix props (tps : list (jsstring * json numeral)) (vps : list (jsstring * JSValue)) : bool :=
         match tps, vps with
         | [], [] => true
         | (k, t') :: tps', (k', v') :: vps' =>
             bool_decide (k = k') && same_values t' v' && props tps' vps'
         | _, _ => false
         end) tps vps
  | _, _ => false
  end.

(** The inline payload of the first part that has one. *)
Fixpoint first_inline (ps : list Part) : option Blob :=
  match ps with
  | [] => None
  | part :: rest =>
      match inlineData part with
      | Some blob => Some blob
      | None => first_inline rest
      end
  end.

(** All the parts of a response, candidate after candidate. *)
Definition all_parts (response : GenerateContentResponse) : list Part :=
  concat (map (fun c => from_option (fun ct => default [] (parts ct)) [] (content c))
              (default [] (candidates response))).

(** The data URL the image functions make of an inline payload. *)
Definition data_url (blob : Blob) : jsstring :=
  js "data:image/png;base64," ++ template (data blob).



(** The state updates of a run, in order. *)
Fixpoint updates {U : Type} (tr : list (Event U)) : list U :=
  match tr with
  | Did (SetState u) :: rest => u :: updates rest
  | _ :: rest => updates rest
  | [] => []
  end.

(** The messages a run showed to the user. *)
Fixpoint alerts {U : Type} (tr : list (Event U)) : list jsstring :=
  match tr with
  | Did (Alert m) :: rest => m :: alerts rest
  | _ :: rest => alerts rest
  | [] => []
  end.

(** An update that leaves the plan, the details and every phase index
    other than [i] as they are, whatever state it is applied to. *)
Definition local_to (i : nat) (u : Dashboard.Update) : Prop :=
  forall d : Dashboard.t,
    Dashboard.plan (Dashboard.apply u d) = Dashboard.plan d /\
    Dashboard.details (Dashboard.apply u d) = Dashboard.details d /\
    forall j, j <> i -> Dashboard.slot (Dashboard.apply u d) j = Dashboard.slot d j.

(** An update that leaves both asset maps as they are. *)
Definition keeps_assets (u : Dashboard.Update) : Prop :=
  forall d : Dashboard.t,
    Dashboard.phaseImages (Dashboard.apply u d) = Dashboard.phaseImages d /\
    Dashboard.blueprints (Dashboard.apply u d) = Dashboard.blueprints d.

(** A handler, or what is left of it, all of whose updates are local to
    the phase index [i], however its promises settle. *)
Fixpoint confined {A : Type} (i : nat) (p : Prog Dashboard.Update A) : Prop :=
  match p with
  | Ret _ | Throw _ => True
  | Do (SetState u) k => local_to i u /\ confined i k
  | Do _ k => confined i k
  | Await c k => forall r, confined i (k r)
  end.

(** The dashboard's event loop moves by a call of a handler for a phase
    other than [j], or by the settling of a waiting promise. *)
Inductive others_move (window : Window) (j : nat)
  : Loop Dashboard.Update Dashboard.t -> Loop Dashboard.Update Dashboard.t -> Prop :=
| move_image l i description :
    i <> j ->
    others_move window j l
      (spawn Dashboard.apply (Dashboard.handleGenerateImage window (state l) i description) l)
| move_blueprint l i name description :
    i <> j ->
    others_move window j l
      (spawn Dashboard.apply
         (Dashboard.handleGenerateBlueprint window (state l) i name description) l)
| move_settle l k host l' :
    settle Dashboard.apply k host l = Some l' ->
    others_move window j l l'.

(** The hook that checks for a credential is absent: the host provides no
    [aistudio], or one without [hasSelectedApiKey]. *)
Definition hook_absent (window : Window) : Prop :=
  match aistudio window with
  | None => True
  | Some studio => has_hasSelectedApiKey studio = false
  end.

(** A session in which Generate is never clicked while a request is
    loading, which is what passing [isLoading] to the button is for. *)
Definition is_generate (i : App.Input) : bool :=
  match i with
  | App.ClickGenerate => true
  | _ => false
  end.

Fixpoint calm (Number_toString : number -> jsstring) (l : Loop App.Update App.t)
    (inputs : list App.Input) : bool :=
  match inputs with
  | [] => true
  | i :: rest =>
      negb (is_generate i && App.isLoading (state l)) &&
      match App.react Number_toString l i with
      | Some l' => calm Number_toString l' rest
      | None => true
      end
  end.

(** A handler that waits for the plan service and, once the promise
    settles, ends at once: with the plan stored and the dashboard shown,
    or with an error message stored; either way nothing is loading. *)
Definition awaiting_plan (waiting : Prog App.Update unit) : Prop :=
  exists c k,
    waiting = Await c k /\
    forall (r : Settled (Reply c)) (s : App.t),
      let s' := fst (advance App.apply (k r) s) in
      suspended (snd (advance App.apply (k r) s)) = false /\
      App.isLoading s' = false /\
      ((App.step s' = 3 /\ App.error s' = App.error s) \/
       (App.step s' = App.step s /\ App.plan s' = App.plan s)).

(** What holds all along a calm session: either nothing is in flight,
    nothing is loading and the dashboard is shown without an error
    message; or one request is in flight from the form, loading, with no
    error message. *)
Definition at_most_one_in_flight (l : Loop App.Update App.t) : Prop :=
  (pending l = [] /\
   App.isLoading (state l) = false /\
   (App.step (state l) = 3 -> App.error (state l) = None)) \/
  (exists waiting,
      pending l = [waiting] /\
      awaiting_plan waiting /\
      App.isLoading (state l) = true /\
      App.error (state l) = None /\
      App.step (state l) = 1).

(** A session with one request: a photo, an address, one click on
    Generate, and the plan arrives. *)
Definition single_request_session : list App.Input :=
  [ App.FileLoaded one_jpeg;
    App.EditAddress (js "Torstr. 45");
    App.ClickGenerate;
    App.Settle 0 (answering (text_response (Some sample_plan_text)) true) ].

(** The inputs after which a reset leaves a stale error behind: one
    photo, an address, two overlapping clicks on Generate, the first
    request rejected, the second answered, then the reset. *)
Definition overlapping_session : list App.Input :=
  [ App.FileLoaded one_jpeg;
    App.EditAddress (js "Torstr. 45");
    App.ClickGenerate;
    App.ClickGenerate;
    App.Settle 0 (rejecting NetworkFailure);
    App.Settle 0 (answering (text_response (Some sample_plan_text)) true);
    App.ClickReset ].

(* ===================================================================== *)
(** * Image intake ([components/Moodboard.tsx]) *)
(* ===================================================================== *)

Module Moodboard.


(** [s.split(sep)] for a separator of one code unit: the segments
    between its occurrences, at least one. *)
Fixpoint split (sep : N) (s : jsstring) : list jsstring :=
  match s with
  | [] => [[]]
  | c :: r =>
      if (c =? sep)%N then [] :: split sep r
      else
        match split sep r with
        | seg :: segs => (c :: seg) :: segs
        | [] => [[c]]
        end
  end.




End Moodboard.

(** What a run wrote to the console with [console.error]. *)
Fixpoint logs {U : Type} (tr : list (Event U)) : list (jsstring * Thrown) :=
  match tr with
  | Did (ConsoleError label e) :: rest => (label, e) :: logs rest
  | _ :: rest => logs rest
  | [] => []
  end.

(** * The cost chart of the dashboard ([components/Dashboard.tsx]) *)

Definition is_nan (x : number) : bool :=
  match x with
  | S754_nan => true
  | _ => false
  end.

(** [Math.max(...values)]: NaN if a value is NaN; otherwise the highest
    value, from minus infinity, where [+0] is above [-0]. *)
Definition higher (highest n : number) : number :=
  match n, highest with
  | S754_zero false, S754_zero true => n
  | _, _ => if SFltb highest n then n else highest
  end.

Definition Math_max (values : list number) : number :=
  if existsb is_nan values then S754_nan
  else foldl higher (S754_infinity true) values.

(** [Math.max(...plan.phases.map(p => p.costEstimate))] *)
Definition maxCost (plan : RenovationPlan) : number :=
  Math_max (map costEstimate (phases plan)).

(** [(phase.costEstimate / maxCost) * 100] *)
Definition widthPercentage (plan : RenovationPlan) (phase : RenovationPhase) : number :=
  SFmul prec64 emax64
    (SFdiv prec64 emax64 (costEstimate phase) (maxCost plan))
    (Number_of_Z 100).

(** * The PDF export of the dashboard ([handleExport]) *)

Module Pdf.

(** [setTextColor(r, g, b)] and [setTextColor(grey)]. *)
Inductive Colour : Type :=
| Rgb (r g b : Z)
| Grey (level : Z).

(** The calls made on the document, in order.  [text] is given a string
    or, from [splitTextToSize], an array of lines.  The coordinates are
    whole numbers, which JavaScript adds and multiplies without rounding
    below [2^53]; they are integers here. *)
Inductive Op : Type :=
| setFontSize (size : Z)
| setTextColor (c : Colour)
| text (s : jsstring) (x y : Z)
| text_lines (lines : list jsstring) (x y : Z)
| save (filename : jsstring).

Section Document.
(** [doc.splitTextToSize], [Number.prototype.toLocaleString] and the
    conversion of a number to a string in a template literal. *)
Variable splitTextToSize : jsstring -> Z -> list jsstring.
Variable toLocaleString : number -> jsstring.
Variable Number_toString : number -> jsstring.

(** The body of [plan.phases.forEach((phase, i) => ...)] at index [i],
    with [yPos] before and after. *)
Definition phase_entry (i : nat) (phase : RenovationPhase) (yPos : Z) : list Op * Z :=
  let heading := Number_toString (Number_of_Z (Z.of_nat i + 1)) ++ js ". " ++ phase_name phase
                 ++ js " (" ++ Number_toString (durationWeeks phase) ++ js " weeks)" in
  let estimate := js "Est: " ++ euro ++ toLocaleString (costEstimate phase) in
  let yPos1 := (yPos + 5)%Z in
  let descLines := splitTextToSize (phase_description phase) 160 in
  ([ setFontSize 11;
     text heading 20 yPos;
     setFontSize 9;
     text estimate 150 yPos;
     setTextColor (Grey 100);
     text_lines descLines 25 yPos1;
     setTextColor (Grey 60) ],
   (yPos1 + (Z.of_nat (length descLines) * 4 + 6))%Z).

Fixpoint phase_entries (i : nat) (ps : list RenovationPhase) (yPos : Z) : list Op * Z :=
  match ps with
  | [] => ([], yPos)
  | phase :: rest =>
      let '(ops, yPos1) := phase_entry i phase yPos in
      let '(ops', yPos2) := phase_entries (S i) rest yPos1 in
      (ops ++ ops', yPos2)
  end.

(** The body of [plan.funding.forEach(fund => ...)]. *)
Definition funding_entry (fund : FundingBadge) (yPos : Z) : list Op * Z :=
  ([ setFontSize 11;
     setTextColor (Rgb 171 35 124);
     text (js "[" ++ funding_name fund ++ js "] " ++ amount fund) 20 yPos;
     setTextColor (Grey 60) ],
   (yPos + 6)%Z).

Fixpoint funding_entries (fs : list FundingBadge) (yPos : Z) : list Op * Z :=
  match fs with
  | [] => ([], yPos)
  | fund :: rest =>
      let '(ops, yPos1) := funding_entry fund yPos in
      let '(ops', yPos2) := funding_entries rest yPos1 in
      (ops ++ ops', yPos2)
  end.

Definition handleExport (plan : RenovationPlan) (details : PropertyDetails) : list Op :=
  let summaryLines := splitTextToSize (summary plan) 170 in
  let yPos := (70 + Z.of_nat (length summaryLines) * 5 + 10)%Z in
  let '(phase_ops, yPos1) := phase_entries 0 (phases plan) (yPos + 10)%Z in
  let yPos2 := (yPos1 + 10)%Z in
  let '(funding_ops, _) := funding_entries (funding plan) (yPos2 + 10)%Z in
  [ setFontSize 20;
    setTextColor (Rgb 171 35 124);
    text (js "Reno | Renovation Plan") 20 20;
    setFontSize 12;
    setTextColor (Rgb 60 60 60);
    text (js "Address: " ++ address details) 20 30;
    text (js "Est. Cost: " ++ euro ++ toLocaleString (totalCost plan)) 20 38;
    text (js "Duration: " ++ Number_toString (totalDuration plan) ++ js " Weeks") 20 46;
    setFontSize 14;
    text (js "Executive Summary") 20 60;
    setFontSize 10;
    text_lines summaryLines 20 70;
    setFontSize 14;
    text (js "Project Phases") 20 yPos ]
  ++ phase_ops
  ++ [ setFontSize 14;
       setTextColor (Grey 0);
       text (js "Eligible Funding") 20 yPos2 ]
  ++ funding_ops
  ++ [ save (js "reno-plan.pdf") ].

End Document.

(** Where each text of a document was put, top to bottom being
    increasing [y]. *)
Fixpoint heights (ops : list Op) : list Z :=
  match ops with
  | text _ _ y :: rest | text_lines _ _ y :: rest => y :: heights rest
  | _ :: rest => heights rest
  | [] => []
  end.

Fixpoint saved (ops : list Op) : list jsstring :=
  match ops with
  | save filename :: rest => filename :: saved rest
  | _ :: rest => saved rest
  | [] => []
  end.

(** No height is above the one before it, from [top] down. *)
Fixpoint downwards (top : Z) (ys : list Z) : bool :=
  match ys with
  | [] => true
  | y :: rest => (top <=? y)%Z && downwards y rest
  end.

(** The height the phases leave the cursor at, from [yPos]: each phase
    takes a heading line and its description lines. *)
Definition below_phases (splitTextToSize : jsstring -> Z -> list jsstring)
    (ps : list RenovationPhase) (yPos : Z) : Z :=
  foldl (fun y phase =>
           (y + 11 + 4 * Z.of_nat (length (splitTextToSize (phase_description phase) 160)))%Z)
        yPos ps.

End Pdf.

(* ===================================================================== *)
(** * Plan generation: how a call ends *)
(* ===================================================================== *)

Section PlanGeneration.
Context {U : Type}.
Variable Number_toString : number -> jsstring.
Variable host : Host.
Variables (details : PropertyDetails) (images : list ImageAsset).

Let req := plan_request Number_toString details images.
Let call : Prog U JSValue := analyzeRenovation Number_toString details images.
Let logged (e : Thrown) : Event U := Did (ConsoleError (js "Gemini Analysis Failed:") e).

(** Every run of [analyzeRenovation], case by case on what the service
    promise settles to. *)
Lemma run_analyzeRenovation :
  run host call =
  match host (GenerateContent req) with
  | Rejected reason =>
      ([Called (GenerateContent req); logged (Rejection reason)], Threw (Rejection reason))
  | Fulfilled response =>
      if falsy (response_text response) then
        ([Called (GenerateContent req); logged (JsError (js "No response from AI"))],
         Threw (JsError (js "No response from AI")))
      else
        match JSON_parse (template (response_text response)) with
        | inr value => ([Called (GenerateContent req)], Returned value)
        | inl why =>
            ([Called (GenerateContent req); logged (JsSyntaxError why)],
             Threw (JsSyntaxError why))
        end
  end.
Proof using Type.
  subst req call logged. unfold analyzeRenovation. cbn [mbind prog_bind bind await try_catch run].
  destruct (host _) as [response|reason]; cbn [bind try_catch run]; [|done].
  destruct (falsy _); cbn [bind try_catch run]; [done|].
  destruct (JSON_parse _); done.
Qed.
End PlanGeneration.

(** ** C1 *)

(** A text with only a summary is not valid against the schema, yet the
    call returns the object read from it: a plan with seven of its eight
    required fields absent. *)
Lemma analyzeRenovation_returns_partial_plan :
  schema_valid (json_text "{'summary':'Only a summary'}") = false /\
  snd (run (U:=unit)
         (answering (text_response (Some (json_text "{'summary':'Only a summary'}"))) true)
         (analyzeRenovation toString_safe berlin_details [one_jpeg]))
  = Returned (JObj [(js "summary", JStr (js "Only a summary"))]).
Proof. split; vm_compute; reflexivity. Qed.

(** C1, as the code has it: on a non-empty response text the call ends
    exactly as [JSON.parse] does.  A text that does not parse makes it
    throw the parser's [SyntaxError], and no plan is returned; a text that
    parses is returned as read, whole, with no check of the required
    fields. *)
Theorem analyzeRenovation_malformed_payload :
  forall (U : Type) (Number_toString : number -> jsstring) (host : Host)
         (details : PropertyDetails) (images : list ImageAsset)
         (response : GenerateContentResponse) (text : jsstring),
    host (GenerateContent (plan_request Number_toString details images)) = Fulfilled response ->
    response_text response = Some text ->
    text <> [] ->
    snd (run (U:=U) host (analyzeRenovation Number_toString details images)) =
    match JSON_parse text with
    | inl why => Threw (JsSyntaxError why)
    | inr value => Returned value
    end.
Proof.
  intros U toStr host details images response text Hreply Htext Hne.
  rewrite run_analyzeRenovation, Hreply, Htext.
  destruct text as [|c text]; [done|]. cbn [falsy template].
  by destruct (JSON_parse _).
Qed.

Lemma analyzeRenovation_malformed_payload_witness :
  snd (run (U:=unit)
         (answering (text_response (Some (json_text "{'summary': 'cut off"))) true)
         (analyzeRenovation toString_safe berlin_details [one_jpeg]))
  = Threw (JsSyntaxError UnexpectedEnd).
Proof.
  apply (analyzeRenovation_malformed_payload unit toString_safe
           (answering (text_response (Some (json_text "{'summary': 'cut off"))) true)
           berlin_details [one_jpeg]
           (text_response (Some (json_text "{'summary': 'cut off")))
           (json_text "{'summary': 'cut off")).
  - reflexivity.
  - reflexivity.
  - vm_compute. discriminate.
Defined.

(** ** C4 *)

(** C4: when the service answers with no text, or with the empty text,
    the call throws the error "No response from AI" and returns no
    plan. *)
Theorem analyzeRenovation_empty_response :
  forall (U : Type) (Number_toString : number -> jsstring) (host : Host)
         (details : PropertyDetails) (images : list ImageAsset)
         (response : GenerateContentResponse),
    host (GenerateContent (plan_request Number_toString details images)) = Fulfilled response ->
    response_text response = None \/ response_text response = Some [] ->
    snd (run (U:=U) host (analyzeRenovation Number_toString details images)) =
    Threw (JsError (js "No response from AI")).
Proof.
  intros U toStr host details images response Hreply Hempty.
  rewrite run_analyzeRenovation, Hreply.
  by destruct Hempty as [-> | ->].
Qed.

Lemma analyzeRenovation_empty_response_witness :
  snd (run (U:=unit) (answering (text_response (Some [])) true)
         (analyzeRenovation toString_safe berlin_details [one_jpeg]))
  = Threw (JsError (js "No response from AI")).
Proof.
  apply (analyzeRenovation_empty_response unit toString_safe
           (answering (text_response (Some [])) true) berlin_details [one_jpeg]
           (text_response (Some []))).
  - reflexivity.
  - right. reflexivity.
Defined.

(** ** C5 *)

(** C5: when the service promise is rejected, the call throws the very
    reason of the rejection, after one request and no more.  That error
    differs from the [SyntaxError] of a malformed payload and from the
    error of an empty response, and no answered request ever ends in
    it. *)
Theorem analyzeRenovation_service_failure :
  forall (U : Type) (Number_toString : number -> jsstring) (host : Host)
         (details : PropertyDetails) (images : list ImageAsset)
         (reason : ExternalFailure),
    host (GenerateContent (plan_request Number_toString details images)) = Rejected reason ->
    let '(trace, outcome) := run (U:=U) host (analyzeRenovation Number_toString details images) in
    outcome = Threw (Rejection reason) /\
    requests trace = [plan_request Number_toString details images] /\
    (forall why, outcome <> Threw (JsSyntaxError why)) /\
    (forall message, outcome <> Threw (JsError message)) /\
    (forall (host' : Host) (response : GenerateContentResponse) (reason' : ExternalFailure),
        host' (GenerateContent (plan_request Number_toString details images)) = Fulfilled response ->
        snd (run (U:=U) host' (analyzeRenovation Number_toString details images))
        <> Threw (Rejection reason')).
Proof.
  intros U toStr host details images reason Hreply.
  rewrite run_analyzeRenovation, Hreply.
  repeat split; try done.
  intros host' response reason' Hreply'.
  rewrite run_analyzeRenovation, Hreply'.
  destruct (falsy _); [done|]. by destruct (JSON_parse _).
Qed.

Lemma analyzeRenovation_service_failure_witness :
  snd (run (U:=unit) (rejecting QuotaFailure)
         (analyzeRenovation toString_safe berlin_details [one_jpeg]))
  = Threw (Rejection QuotaFailure).
Proof.
  pose proof (analyzeRenovation_service_failure unit toString_safe (rejecting QuotaFailure)
                berlin_details [one_jpeg] QuotaFailure eq_refl) as H.
  destruct (run _ _) as [trace outcome].
  exact (proj1 H).
Defined.

(** ** C2 *)

Lemma occurs_in_here (needle after : jsstring) : occurs_in needle (needle ++ after).
Proof. by exists [], after. Qed.

Lemma occurs_in_later (needle before hay : jsstring) :
  occurs_in needle hay -> occurs_in needle (before ++ hay).
Proof.
  intros (b & a & ->). exists (before ++ b), a. by rewrite <- app_assoc.
Qed.

(** The instruction text, piece by piece: each detail sits on its own
    labelled line. *)
Lemma prompt_lines (Number_toString : number -> jsstring) (details : PropertyDetails) :
  let instruction := prompt Number_toString details in
  occurs_in (js "    Address: " ++ address details ++ nl) instruction /\
  occurs_in (js "    Size: " ++ Number_toString (sqm details) ++ js " sqm" ++ nl) instruction /\
  occurs_in (js "    Budget: " ++ euro ++ Number_toString (budget details) ++ nl) instruction /\
  occurs_in (js "    Current Efficiency Class: " ++ currentEfficiency details ++ nl) instruction.
Proof.
  unfold prompt; cbn zeta.
  repeat split.
  - do 5 apply occurs_in_later.
    eexists [], _. cbn [app]. rewrite <- !app_assoc. reflexivity.
  - do 8 apply occurs_in_later.
    eexists [], _. cbn [app]. rewrite <- !app_assoc. reflexivity.
  - do 12 apply occurs_in_later.
    eexists [], _. cbn [app]. rewrite <- !app_assoc. reflexivity.
  - do 16 apply occurs_in_later.
    eexists [], _. cbn [app]. rewrite <- !app_assoc. reflexivity.
Qed.

(** C2: the call sends one request.  Its parts are the images, one part
    each, with their mime type and base64 data in the order given,
    followed by the instruction text, in which the address, the floor
    area, the budget and the efficiency class occur as they are rendered;
    the schema is declared with it.  This holds for every input, so in
    particular for a non-empty address and a non-empty image list. *)
Theorem analyzeRenovation_request :
  forall (U : Type) (Number_toString : number -> jsstring) (host : Host)
         (details : PropertyDetails) (images : list ImageAsset),
    let request := plan_request Number_toString details images in
    requests (fst (run (U:=U) host (analyzeRenovation Number_toString details images)))
      = [request] /\
    (exists instruction,
        contents request = imageParts images ++ [text_part instruction] /\
        occurs_in (address details) instruction /\
        occurs_in (Number_toString (sqm details)) instruction /\
        occurs_in (Number_toString (budget details)) instruction /\
        occurs_in (currentEfficiency details) instruction) /\
    length (imageParts images) = length images /\
    (forall (i : nat) (img : ImageAsset),
        images !! i = Some img ->
        imageParts images !! i = Some (inline_part (Some (type img)) (Some (base64 img)))) /\
    config_responseSchema (config request) = Some responseSchema.
Proof.
  intros U toStr host details images request.
  split; [|split; [|split; [|split]]].
  - rewrite run_analyzeRenovation. fold request.
    destruct (host _) as [response|reason]; [|done].
    destruct (falsy _); [done|]. by destruct (JSON_parse _).
  - exists (prompt toStr details). split; [done|].
    destruct (prompt_lines toStr details) as (Ha & Hs & Hb & He).
    repeat split.
    + destruct Ha as (b & a & ->). exists (b ++ js "    Address: "), (nl ++ a).
      by rewrite <- !app_assoc.
    + destruct Hs as (b & a & ->). exists (b ++ js "    Size: "), (js " sqm" ++ nl ++ a).
      by rewrite <- !app_assoc.
    + destruct Hb as (b & a & ->). exists (b ++ js "    Budget: " ++ euro), (nl ++ a).
      by rewrite <- !app_assoc.
    + destruct He as (b & a & ->).
      exists (b ++ js "    Current Efficiency Class: "), (nl ++ a).
      by rewrite <- !app_assoc.
  - unfold imageParts. by rewrite length_map.
  - intros i img Hi. unfold imageParts. by rewrite list_lookup_fmap, Hi.
  - done.
Qed.

(** The scenario of the specification: one request, one image part, and
    the details as they read. *)
Example analyzeRenovation_request_berlin :
  let request := plan_request toString_safe berlin_details [one_jpeg] in
  requests (fst (run (U:=unit) (rejecting NetworkFailure)
                   (analyzeRenovation toString_safe berlin_details [one_jpeg]))) = [request] /\
  contents request =
    [ inline_part (Some (js "image/jpeg")) (Some (js "/9j/4AAQ"));
      text_part (prompt toString_safe berlin_details) ] /\
  occurs_in (js "Address: Torstra" ++ [223%N] ++ js "e 45, Berlin") (prompt toString_safe berlin_details) /\
  occurs_in (js "Size: 500 sqm") (prompt toString_safe berlin_details) /\
  occurs_in (js "Budget: " ++ euro ++ js "250000") (prompt toString_safe berlin_details) /\
  occurs_in (js "Current Efficiency Class: E") (prompt toString_safe berlin_details).
Proof.
  cbn zeta. split; [reflexivity|]. split; [reflexivity|].
  destruct (prompt_lines toString_safe berlin_details) as (Ha & Hs & Hb & He).
  repeat split.
  - destruct Ha as (b & a & ->). exists (b ++ js "    "), (nl ++ a).
    rewrite <- !app_assoc. reflexivity.
  - destruct Hs as (b & a & ->). exists (b ++ js "    "), (nl ++ a).
    rewrite <- !app_assoc. reflexivity.
  - destruct Hb as (b & a & ->). exists (b ++ js "    "), (nl ++ a).
    rewrite <- !app_assoc. reflexivity.
  - destruct He as (b & a & ->). exists (b ++ js "    "), (nl ++ a).
    rewrite <- !app_assoc. reflexivity.
Qed.

(* ===================================================================== *)
(** * The reader never runs out of budget *)
(* ===================================================================== *)

Lemma skip_ws_length (s : jsstring) : length (skip_ws s) <= length s.
Proof. induction s as [|c s IH]; cbn; [lia|]. destruct (is_ws c); cbn; lia. Qed.

Lemma skip_ws_cons (s : jsstring) (c : N) (r : jsstring) :
  skip_ws s = c :: r -> length r < length s.
Proof. intros H. pose proof (skip_ws_length s) as Hl. rewrite H in Hl. cbn in Hl. lia. Qed.

Lemma read_string_fed (s acc : jsstring) :
  read_string s acc <> Starved /\
  forall v r, read_string s acc = Ok v r -> length r < length s.
Proof.
  revert acc. remember (length s) as n eqn:Hn.
  revert s Hn. induction n as [n IHn] using lt_wf_ind. intros s -> acc.
  assert (forall r, length r < length s -> forall acc,
             read_string r acc <> Starved /\
             forall v r0, read_string r acc = Ok v r0 -> length r0 < length r) as IH
    by (intros r Hr acc'; by apply (IHn (length r))).
  clear IHn.
  destruct s as [|c r]; cbn [read_string]; [by split|].
  destruct (c =? quote)%N.
  { split; [done|]. intros v r0 [= _ <-]. cbn. lia. }
  destruct (c =? backslash)%N.
  - destruct r as [|e r1]; [by split|].
    destruct (e =? 117)%N.
    + destruct r1 as [|h1 [|h2 [|h3 [|h4 r2]]]]; try by split.
      destruct (hex_val h1), (hex_val h2), (hex_val h3), (hex_val h4); try by split.
      destruct (IH r2 ltac:(cbn; lia) ((((n * 16 + n0) * 16 + n1) * 16 + n2)%N :: acc)) as [H1 H2].
      split; [done|]. intros v r0 Hok. apply H2 in Hok. cbn. lia.
    + destruct (unescape e); [|by split].
      destruct (IH r1 ltac:(cbn; lia) (n :: acc)) as [H1 H2].
      split; [done|]. intros v r0 Hok. apply H2 in Hok. cbn. lia.
  - destruct (c <? 32)%N; [by split|].
    destruct (IH r ltac:(cbn; lia) (c :: acc)) as [H1 H2].
    split; [done|]. intros v r0 Hok. apply H2 in Hok. cbn. lia.
Qed.

Lemma read_digits_length (s : jsstring) (acc count : Z) :
  length (snd (read_digits s acc count)) <= length s.
Proof.
  revert acc count. induction s as [|c s IH]; intros acc count; cbn; [lia|].
  destruct (is_digit c); cbn; [|lia].
  specialize (IH (acc * 10 + Z.of_N (c - 48))%Z (count + 1)%Z). lia.
Qed.

Lemma read_int_fed (s : jsstring) :
  read_int s <> Starved /\ forall v r, read_int s = Ok v r -> length r < length s.
Proof.
  destruct s as [|c r]; cbn [read_int]; [by split|].
  destruct (c =? 48)%N.
  { split; [done|]. intros v r0 [= _ <-]. cbn. lia. }
  destruct (is_digit c) eqn:Hd; [|by split].
  pose proof (read_digits_length (c :: r) 0 0) as Hl.
  destruct (read_digits (c :: r) 0 0) as [[v k] r'] eqn:Hr.
  split; [done|]. intros v0 r0 [= _ <-].
  cbn [read_digits] in Hr. rewrite Hd in Hr.
  pose proof (read_digits_length r (0 * 10 + Z.of_N (c - 48))%Z (0 + 1)%Z) as Hl'.
  rewrite Hr in Hl'. cbn in *. lia.
Qed.

Lemma read_frac_fed (s : jsstring) (m : Z) :
  read_frac s m <> Starved /\ forall v r, read_frac s m = Ok v r -> length r <= length s.
Proof.
  destruct s as [|c r]; cbn [read_frac].
  { split; [done|]. intros v r0 [= _ <-]. done. }
  destruct (c =? 46)%N.
  - pose proof (read_digits_length r m 0) as Hl.
    destruct (read_digits r m 0) as [[v k] r'].
    destruct (k =? 0)%Z; [by split|].
    split; [done|]. intros v0 r0 [= _ <-]. cbn in *. lia.
  - split; [done|]. intros v r0 [= _ <-]. done.
Qed.

Lemma read_exp_fed (s : jsstring) :
  read_exp s <> Starved /\ forall v r, read_exp s = Ok v r -> length r <= length s.
Proof.
  destruct s as [|c r]; cbn [read_exp].
  { split; [done|]. intros v r0 [= _ <-]. done. }
  destruct ((c =? 101) || (c =? 69))%N.
  - assert (exists neg r1, (match r with
                            | d :: r' => if (d =? 45)%N then (true, r')
                                         else if (d =? 43)%N then (false, r') else (false, r)
                            | [] => (false, r)
                            end) = (neg, r1) /\ length r1 <= length r) as (neg & r1 & -> & Hr1).
    { destruct r as [|d r']; [by exists false, []|].
      destruct (d =? 45)%N; [exists true, r'; cbn; split; [done|lia]|].
      destruct (d =? 43)%N; [exists false, r'; cbn; split; [done|lia]|].
      by exists false, (d :: r'). }
    pose proof (read_digits_length r1 0 0) as Hl.
    destruct (read_digits r1 0 0) as [[v k] r2].
    destruct (k =? 0)%Z; [by split|].
    split; [done|]. intros v0 r0 [= _ <-]. cbn in *. lia.
  - split; [done|]. intros v r0 [= _ <-]. done.
Qed.

Lemma read_number_fed (s : jsstring) :
  read_number s <> Starved /\ forall v r, read_number s = Ok v r -> length r < length s.
Proof.
  unfold read_number.
  assert (exists neg s1, (match s with
                          | c :: r => if (c =? 45)%N then (true, r) else (false, s)
                          | [] => (false, s)
                          end) = (neg, s1) /\ length s1 <= length s) as (neg & s1 & -> & Hs1).
  { destruct s as [|c r]; [by exists false, []|].
    destruct (c =? 45)%N; [exists true, r; cbn; split; [done|lia]|].
    by exists false, (c :: r). }
  destruct (read_int_fed s1) as [Hi1 Hi2].
  destruct (read_int s1) as [i s2| |]; [|by split|done].
  specialize (Hi2 _ _ eq_refl).
  destruct (read_frac_fed s2 i) as [Hf1 Hf2].
  destruct (read_frac s2 i) as [mk s3| |]; [|by split|done].
  specialize (Hf2 _ _ eq_refl).
  destruct (read_exp_fed s3) as [He1 He2].
  destruct (read_exp s3) as [e s4| |]; [|by split|done].
  specialize (He2 _ _ eq_refl).
  split; [done|]. intros v r [= _ <-]. lia.
Qed.

Lemma keyword_fed {A : Type} (w : jsstring) (a : A) (s : jsstring) :
  keyword w a s <> Starved /\ forall v r, keyword w a s = Ok v r -> length r <= length s.
Proof.
  revert s. induction w as [|x w IH]; intros s; cbn [keyword].
  { split; [done|]. intros v r [= _ <-]. done. }
  destruct s as [|c r]; [by split|].
  destruct (c =? x)%N; [|by split].
  destruct (IH r) as [H1 H2]. split; [done|].
  intros v r0 Hok. apply H2 in Hok. cbn. lia.
Qed.

(** With a budget of twice the length of the text (and one or two more),
    the three mutually recursive readers end in a value or in a syntax
    error, and a value read consumes at least one code unit. *)
Lemma readers_fed (fuel : nat) :
  (forall s, 2 * length s + 1 <= fuel ->
     read_value fuel s <> Starved /\
     forall v r, read_value fuel s = Ok v r -> length r < length s) /\
  (forall s acc, 2 * length s + 2 <= fuel ->
     read_elements fuel s acc <> Starved /\
     forall v r, read_elements fuel s acc = Ok v r -> length r < length s) /\
  (forall s acc, 2 * length s + 2 <= fuel ->
     read_members fuel s acc <> Starved /\
     forall v r, read_members fuel s acc = Ok v r -> length r < length s).
Proof.
  induction fuel as [|fuel (IHv & IHe & IHm)].
  { repeat split; intros; cbn in *; lia. }
  split; [|split].
  - intros s Hf. cbn [read_value].
    destruct (skip_ws s) as [|c r] eqn:Hs; [by split|].
    apply skip_ws_cons in Hs.
    destruct (c =? 123)%N.
    { destruct (skip_ws r) as [|c' r'] eqn:Hr; [by split|].
      pose proof (skip_ws_length r) as Hl. rewrite Hr in Hl.
      destruct (c' =? 125)%N.
      { split; [done|]. intros v r0 [= _ <-]. cbn in *. lia. }
      destruct (IHm (c' :: r') [] ltac:(cbn in *; lia)) as [H1 H2].
      destruct (read_members fuel (c' :: r') []) as [props r2| |]; [|by split|done].
      specialize (H2 _ _ eq_refl).
      split; [done|]. intros v r0 [= _ <-]. cbn in *. lia. }
    destruct (c =? 91)%N.
    { destruct (skip_ws r) as [|c' r'] eqn:Hr; [by split|].
      pose proof (skip_ws_length r) as Hl. rewrite Hr in Hl.
      destruct (c' =? 93)%N.
      { split; [done|]. intros v r0 [= _ <-]. cbn in *. lia. }
      destruct (IHe (c' :: r') [] ltac:(cbn in *; lia)) as [H1 H2].
      destruct (read_elements fuel (c' :: r') []) as [items r2| |]; [|by split|done].
      specialize (H2 _ _ eq_refl).
      split; [done|]. intros v r0 [= _ <-]. cbn in *. lia. }
    destruct (c =? quote)%N.
    { destruct (read_string_fed r []) as [H1 H2].
      destruct (read_string r []) as [str r2| |]; [|by split|done].
      specialize (H2 _ _ eq_refl).
      split; [done|]. intros v r0 [= _ <-]. lia. }
    destruct (c =? 116)%N.
    { destruct (keyword_fed (js "rue") (JBool (X:=numeral) true) r) as [H1 H2].
      split; [done|]. intros v r0 Hok. apply H2 in Hok. lia. }
    destruct (c =? 102)%N.
    { destruct (keyword_fed (js "alse") (JBool (X:=numeral) false) r) as [H1 H2].
      split; [done|]. intros v r0 Hok. apply H2 in Hok. lia. }
    destruct (c =? 110)%N.
    { destruct (keyword_fed (js "ull") (JNull (X:=numeral)) r) as [H1 H2].
      split; [done|]. intros v r0 Hok. apply H2 in Hok. lia. }
    destruct ((c =? 45)%N || is_digit c); [|by split].
    destruct (read_number_fed (c :: r)) as [H1 H2].
    destruct (read_number (c :: r)) as [n r2| |]; [|by split|done].
    specialize (H2 _ _ eq_refl).
    split; [done|]. intros v r0 [= _ <-]. cbn in *. lia.
  - intros s acc Hf. cbn [read_elements].
    destruct (IHv s ltac:(lia)) as [H1 H2].
    destruct (read_value fuel s) as [v r| |]; [|by split|done].
    specialize (H2 _ _ eq_refl).
    destruct (skip_ws r) as [|c r'] eqn:Hr; [by split|].
    apply skip_ws_cons in Hr.
    destruct (c =? 44)%N.
    { destruct (IHe r' (v :: acc) ltac:(lia)) as [H3 H4].
      split; [done|]. intros v0 r0 Hok. apply H4 in Hok. lia. }
    destruct (c =? 93)%N; [|by split].
    split; [done|]. intros v0 r0 [= _ <-]. lia.
  - intros s acc Hf. cbn [read_members].
    destruct (skip_ws s) as [|c r] eqn:Hs; [by split|].
    apply skip_ws_cons in Hs.
    destruct (c =? quote)%N; [|by split].
    destruct (read_string_fed r []) as [H1 H2].
    destruct (read_string r []) as [key r1| |]; [|by split|done].
    specialize (H2 _ _ eq_refl).
    destruct (skip_ws r1) as [|c1 r2] eqn:Hr1; [by split|].
    apply skip_ws_cons in Hr1.
    destruct (c1 =? 58)%N; [|by split].
    destruct (IHv r2 ltac:(lia)) as [H3 H4].
    destruct (read_value fuel r2) as [v r3| |]; [|by split|done].
    specialize (H4 _ _ eq_refl).
    destruct (skip_ws r3) as [|c3 r4] eqn:Hr3; [by split|].
    apply skip_ws_cons in Hr3.
    destruct (c3 =? 44)%N.
    { destruct (IHm r4 (obj_set key v acc) ltac:(lia)) as [H5 H6].
      split; [done|]. intros v0 r0 Hok. apply H6 in Hok. lia. }
    destruct (c3 =? 125)%N; [|by split].
    split; [done|]. intros v0 r0 [= _ <-]. lia.
Qed.

(** The budget [JSON_read] gives is enough for every text. *)
Theorem read_value_fuel (text : jsstring) :
  read_value (fuel_for text) text <> Starved.
Proof.
  destruct (readers_fed (fuel_for text)) as (Hv & _ & _).
  apply Hv. unfold fuel_for. lia.
Qed.

(* ===================================================================== *)
(** * Trees: induction, property reads, values *)
(* ===================================================================== *)

(** Induction on a tree, with the hypothesis on every item of an array
    and on every property of an object. *)
Lemma json_induction {X : Type} (P : json X -> Prop) :
  P JNull ->
  (forall b, P (JBool b)) ->
  (forall x, P (JNum x)) ->
  (forall s, P (JStr s)) ->
  (forall items, Forall P items -> P (JArr items)) ->
  (forall props, Forall (fun kv => P (snd kv)) props -> P (JObj props)) ->
  forall v, P v.
Proof.
  intros Hnull Hbool Hnum Hstr Harr Hobj.
  fix IH 1. intros [ | b | x | s | items | props ].
  - exact Hnull.
  - apply Hbool.
  - apply Hnum.
  - apply Hstr.
  - apply Harr. induction items as [|v items IHitems]; constructor; [apply IH | exact IHitems].
  - apply Hobj. induction props as [|[k v] props IHprops]; constructor;
      [apply IH | exact IHprops].
Qed.

Lemma assoc_map {V W : Type} (f : V -> W) (key : jsstring) (props : list (jsstring * V)) :
  assoc key (map (fun kv => (fst kv, f (snd kv))) props) = f <$> assoc key props.
Proof.
  induction props as [|[k v] props IH]; cbn; [done|].
  by destruct (decide (k = key)).
Qed.

Lemma get_json_map {X Y : Type} (f : X -> Y) (key : jsstring) (v : json X) :
  get key (json_map f v) = json_map f <$> get key v.
Proof. destruct v; cbn; try done. apply assoc_map. Qed.

(** When every literal of a text is exactly representable, the value
    [JSON.parse] makes of it has the values of the text. *)
Lemma same_values_parse (t : json numeral) :
  Forall (fun n => exactly_representable n = true) (numerals t) ->
  same_values t (json_map Number_of t) = true.
Proof.
  induction t as [ | b | n | s | items IH | props IH ] using json_induction;
    cbn [numerals json_map same_values]; intros Hex.
  - done.
  - by destruct b.
  - by inversion Hex.
  - by apply bool_decide_eq_true.
  - induction IH as [|v items Hv _ IHitems]; cbn [map concat] in *; [done|].
    apply Forall_app in Hex as [Hex1 Hex2].
    apply andb_true_intro. split; [by apply Hv | by apply IHitems].
  - induction IH as [|[k v] props Hv _ IHprops]; cbn [map concat fst snd] in *; [done|].
    apply Forall_app in Hex as [Hex1 Hex2].
    rewrite bool_decide_eq_true_2 by done. cbn [andb].
    apply andb_true_intro. split; [by apply Hv | by apply IHprops].
Qed.

(** A value that conforms to the schema of the plan has its phases, an
    array. *)
Lemma conforms_phases {X : Type} (v : json X) :
  conforms responseSchema v = true ->
  exists ps, get (js "phases") v = Some (JArr ps).
Proof.
  destruct v as [ | | | | | props]; try discriminate.
  unfold responseSchema. cbn [conforms forallb fst snd get].
  intros H. rewrite !andb_true_iff in H. destruct_and!.
  destruct (assoc (js "phases") props) as [w|] eqn:Hw.
  - destruct w; try done. by eexists.
  - exfalso.
    match goal with
    | Hr : bool_decide (is_Some None) = true |- _ =>
        apply bool_decide_eq_true in Hr; by destruct Hr
    end.
Qed.

(* ===================================================================== *)
(** * Integers that are Numbers *)
(* ===================================================================== *)

Lemma digits2_pos_bounds (p : positive) :
  (2 ^ (Z.pos (digits2_pos p) - 1) <= Z.pos p < 2 ^ Z.pos (digits2_pos p))%Z.
Proof.
  induction p as [p IH | p IH | ]; cbn [digits2_pos].
  - rewrite Pos2Z.inj_succ, Z.pow_succ_r by lia.
    replace (Z.succ (Z.pos (digits2_pos p)) - 1)%Z with (Z.succ (Z.pos (digits2_pos p) - 1))%Z by lia.
    rewrite Z.pow_succ_r by lia. lia.
  - rewrite Pos2Z.inj_succ, Z.pow_succ_r by lia.
    replace (Z.succ (Z.pos (digits2_pos p)) - 1)%Z with (Z.succ (Z.pos (digits2_pos p) - 1))%Z by lia.
    rewrite Z.pow_succ_r by lia. lia.
  - cbn. lia.
Qed.

Lemma digits2_pos_shift (p k : positive) :
  digits2_pos (Pos.iter xO p k) = (digits2_pos p + k)%positive.
Proof.
  induction k as [|k IH] using Pos.peano_ind.
  - cbn. lia.
  - rewrite Pos.iter_succ. cbn [digits2_pos]. rewrite IH. lia.
Qed.

Lemma Zpos_shift (p k : positive) :
  Z.pos (Pos.iter xO p k) = (Z.pos p * 2 ^ Z.pos k)%Z.
Proof.
  induction k as [|k IH] using Pos.peano_ind.
  - cbn. lia.
  - rewrite Pos.iter_succ, Pos2Z.inj_succ, Z.pow_succ_r by lia.
    rewrite Pos2Z.inj_xO, IH. lia.
Qed.

(** Rounding leaves a mantissa of 53 bits with an exponent in range as
    it is. *)
Lemma binary_round_aux_canonical (s : bool) (m : positive) (e : Z) :
  Z.pos (digits2_pos m) = 53%Z ->
  (-1074 <= e <= 971)%Z ->
  binary_round_aux prec64 emax64 s (Z.pos m) e loc_Exact = S754_finite s m e.
Proof.
  intros Hd He.
  assert (shr_fexp prec64 emax64 (Z.pos m) e loc_Exact
          = ({| shr_m := Z.pos m; shr_r := false; shr_s := false |}, e)) as Hshr.
  { unfold shr_fexp, fexp, emin, prec64, emax64. cbn [Zdigits2]. rewrite Hd.
    replace (Z.max (53 + e - 53) (3 - 1024 - 53) - e)%Z with 0%Z by lia.
    reflexivity. }
  unfold binary_round_aux. rewrite Hshr. cbn [shr_m loc_of_shr_record round_nearest_even].
  rewrite Hshr. cbn [shr_m].
  unfold prec64, emax64.
  destruct (Z.leb_spec e (1024 - 53)); [done|lia].
Qed.

(** An integer of magnitude at most 2^53 rounds to itself. *)
Lemma binary_round_safe (s : bool) (p : positive) :
  (Z.pos p <= 2 ^ 53)%Z ->
  exists m e,
    binary_round prec64 emax64 s p 0 = S754_finite s m e /\
    (Z.pos m * 2 ^ Z.max e 0 = Z.pos p * 2 ^ Z.max (- e) 0)%Z.
Proof.
  intros Hp.
  pose proof (digits2_pos_bounds p) as [Hlo Hhi].
  assert (Z.pos (digits2_pos p) <= 54)%Z as Hd.
  { destruct (Z.le_gt_cases (Z.pos (digits2_pos p)) 54%Z) as [|Hgt]; [done|].
    assert (2 ^ 54 <= 2 ^ (Z.pos (digits2_pos p) - 1))%Z by (apply Z.pow_le_mono_r; lia).
    lia. }
  destruct (Z.eq_dec (Z.pos (digits2_pos p)) 54%Z) as [H54|H54].
  { assert (p = 9007199254740992%positive) as ->.
    { rewrite H54 in Hlo. change (54 - 1)%Z with 53%Z in Hlo. lia. }
    destruct s; vm_compute; by eexists _, _. }
  unfold binary_round.
  assert (fexp prec64 emax64 (Z.pos (digits2_pos p) + 0) = Z.pos (digits2_pos p) - 53)%Z as ->.
  { unfold fexp, emin, prec64, emax64.
    change (Z.max (Z.pos (digits2_pos p) + 0 - 53) (3 - 1024 - 53)
            = Z.pos (digits2_pos p) - 53)%Z.
    lia. }
  unfold shl_align.
  change (IntDef.Z.sub ?a ?b) with (Z.sub a b).
  destruct (Z.pos (digits2_pos p) - 53 - 0)%Z as [|k|k] eqn:Hk; [|lia|].
  - rewrite binary_round_aux_canonical by lia.
    exists p, 0%Z. split; [done|]. reflexivity.
  - rewrite binary_round_aux_canonical.
    + exists (Pos.iter xO p k), (Z.pos (digits2_pos p) - 53)%Z. split; [done|].
      rewrite Zpos_shift.
      replace (Z.max (Z.pos (digits2_pos p) - 53) 0) with 0%Z by lia.
      replace (Z.max (- (Z.pos (digits2_pos p) - 53)) 0) with (Z.pos k) by lia.
      lia.
    + rewrite digits2_pos_shift. lia.
    + lia.
Qed.

(** Every integer literal of magnitude at most 2^53 is exactly
    representable. *)
Lemma safe_integer_exact (neg : bool) (M : Z) :
  (0 <= M <= 2 ^ 53)%Z ->
  exactly_representable (Numeral neg M 0) = true.
Proof.
  intros HM. unfold exactly_representable, Number_of. cbn [num_digits num_exp10 num_neg].
  destruct (Z.eqb_spec M 0) as [H0|H0].
  { cbn. by rewrite H0. }
  cbn [Z.leb Z.compare]. rewrite Z.pow_0_r, Z.mul_1_r.
  destruct M as [|p|p]; [done| |lia].
  destruct (binary_round_safe neg p (proj2 HM)) as (m & e & Hround & Hval).
  assert (binary_normalize prec64 emax64 (cond_Zopp neg (Z.pos p)) 0 neg
          = S754_finite neg m e) as ->.
  { destruct neg; cbn [cond_Zopp Z.opp binary_normalize]; exact Hround. }
  cbn [represents num_digits num_exp10 num_neg].
  rewrite eqb_reflx. cbn [andb Z.opp].
  change (Z.max 0 0) with 0%Z. rewrite Z.pow_0_r, !Z.mul_1_r.
  by apply Z.eqb_eq.
Qed.

(** ** C3 *)

(** A text that is valid against the schema and whose total cost is
    2^53 + 1: the plan returned has a total cost of 2^53, so its values
    are not those of the text. *)
Lemma analyzeRenovation_rounds_total_cost :
  schema_valid unsafe_total_text = true /\
  exists tree plan,
    JSON_read unsafe_total_text = inr tree /\
    snd (run (U:=unit) (answering (text_response (Some unsafe_total_text)) true)
           (analyzeRenovation toString_safe berlin_details [one_jpeg])) = Returned plan /\
    get (js "totalCost") tree = Some (JNum (Numeral false 9007199254740993 0)) /\
    get (js "totalCost") plan = Some (JNum (Number_of_Z 9007199254740992)) /\
    integer_value (Number_of_Z 9007199254740992) = Some 9007199254740992%Z /\
    same_values tree plan = false.
Proof.
  split; [vm_compute; reflexivity|].
  destruct (JSON_read unsafe_total_text) as [why|tree] eqn:Hread; [vm_compute in Hread; discriminate|].
  exists tree, (json_map Number_of tree).
  split; [reflexivity|].
  split.
  { rewrite run_analyzeRenovation. cbn [answering text_response response_text].
    replace (falsy (Some unsafe_total_text)) with false by (vm_compute; reflexivity).
    cbn [template]. unfold JSON_parse. by rewrite Hread. }
  vm_compute in Hread. injection Hread as <-.
  repeat split; vm_compute; reflexivity.
Qed.

(** C3, as the code has it: on a text that is valid against the schema
    the call returns the value [JSON.parse] makes of it, the text's own
    tree with each numeric literal turned into the nearest Number.  The
    phases are as many as in the text.  The values are those of the text
    once every numeric literal is exactly representable, as every integer
    of magnitude at most 2^53 is, and 180000 among them. *)
Theorem analyzeRenovation_round_trip :
  forall (U : Type) (Number_toString : number -> jsstring) (host : Host)
         (details : PropertyDetails) (images : list ImageAsset)
         (response : GenerateContentResponse) (text : jsstring) (tree : json numeral),
    host (GenerateContent (plan_request Number_toString details images)) = Fulfilled response ->
    response_text response = Some text ->
    JSON_read text = inr tree ->
    conforms responseSchema tree = true ->
    exists plan : JSValue,
      snd (run (U:=U) host (analyzeRenovation Number_toString details images)) = Returned plan /\
      plan = json_map Number_of tree /\
      (exists ps ps',
          get (js "phases") tree = Some (JArr ps) /\
          get (js "phases") plan = Some (JArr ps') /\
          length ps' = length ps) /\
      (Forall (fun n => exactly_representable n = true) (numerals tree) ->
       same_values tree plan = true) /\
      (Forall (fun n => num_exp10 n = 0%Z /\ (0 <= num_digits n <= 2 ^ 53)%Z) (numerals tree) ->
       same_values tree plan = true) /\
      (get (js "totalCost") tree = Some (JNum (Numeral false 180000 0)) ->
       get (js "totalCost") plan = Some (JNum (Number_of_Z 180000)) /\
       integer_value (Number_of_Z 180000) = Some 180000%Z).
Proof.
  intros U toStr host details images response text tree Hreply Htext Hread Hconf.
  exists (json_map Number_of tree).
  assert (text <> []) as Hne by (intros ->; vm_compute in Hread; discriminate).
  split; [|split; [done|split; [|split; [|split]]]].
  - rewrite run_analyzeRenovation, Hreply, Htext.
    destruct text as [|c text]; [done|]. cbn [falsy template].
    unfold JSON_parse. by rewrite Hread.
  - destruct (conforms_phases tree Hconf) as [ps Hps].
    exists ps, (map (json_map Number_of) ps).
    split; [done|]. split; [|by rewrite length_map].
    by rewrite get_json_map, Hps.
  - apply same_values_parse.
  - intros Hint. apply same_values_parse.
    eapply Forall_impl; [exact Hint|].
    intros [neg M E] [HE HM]. cbn in HE, HM. subst E. by apply safe_integer_exact.
  - intros Htotal. split; [|vm_compute; reflexivity].
    by rewrite get_json_map, Htotal.
Qed.

Lemma analyzeRenovation_round_trip_witness :
  exists plan : JSValue,
    snd (run (U:=unit) (answering (text_response (Some sample_plan_text)) true)
           (analyzeRenovation toString_safe berlin_details [one_jpeg])) = Returned plan /\
    get (js "totalCost") plan = Some (JNum (Number_of_Z 180000)) /\
    (exists ps, get (js "phases") plan = Some (JArr ps) /\ length ps = 2).
Proof.
  destruct (JSON_read sample_plan_text) as [why|tree] eqn:Hread;
    [vm_compute in Hread; discriminate|].
  assert (conforms responseSchema tree = true) as Hconf.
  { vm_compute in Hread. injection Hread as <-. vm_compute. reflexivity. }
  destruct (analyzeRenovation_round_trip unit toString_safe
              (answering (text_response (Some sample_plan_text)) true)
              berlin_details [one_jpeg]
              (text_response (Some sample_plan_text)) sample_plan_text tree
              eq_refl eq_refl Hread Hconf)
    as (plan & Hrun & Hplan & (ps & ps' & Hps & Hps' & Hlen) & Hsame & Hint & Htotal).
  exists plan. split; [exact Hrun|].
  vm_compute in Hread. injection Hread as <-.
  split.
  - apply Htotal. vm_compute. reflexivity.
  - exists ps'. split; [exact Hps'|]. rewrite Hlen.
    vm_compute in Hps. injection Hps as <-. reflexivity.
Defined.

(* ===================================================================== *)
(** * Asset generation: how a call ends *)
(* ===================================================================== *)

Lemma run_generateRenovationImage {U : Type} (host : Host) (prompt style : jsstring)
    (size : ImageSize) :
  let req := image_request (fullPrompt prompt style) size in
  let logged (e : Thrown) : Event U := Did (ConsoleError (js "Image Generation Failed:") e) in
  run (U:=U) host (generateRenovationImage prompt style size) =
  match host (GenerateContent req) with
  | Rejected reason =>
      ([Called (GenerateContent req); logged (Rejection reason)], Threw (Rejection reason))
  | Fulfilled response =>
      match first_inline_url (candidate_parts response) with
      | Some url => ([Called (GenerateContent req)], Returned url)
      | None =>
          ([Called (GenerateContent req); logged (JsError (js "No image generated"))],
           Threw (JsError (js "No image generated")))
      end
  end.
Proof.
  unfold generateRenovationImage. cbn [mbind prog_bind bind await try_catch run].
  destruct (host _) as [response|reason]; cbn [bind try_catch run]; [|done].
  by destruct (first_inline_url _).
Qed.

Lemma run_generateBlueprintImage {U : Type} (host : Host) (phaseName description style : jsstring) :
  let req := image_request (blueprint_fullPrompt phaseName description style) Size1K in
  let logged (e : Thrown) : Event U := Did (ConsoleError (js "Blueprint Generation Failed:") e) in
  run (U:=U) host (generateBlueprintImage phaseName description style) =
  match host (GenerateContent req) with
  | Rejected reason =>
      ([Called (GenerateContent req); logged (Rejection reason)], Threw (Rejection reason))
  | Fulfilled response =>
      match first_inline_url (candidate_parts response) with
      | Some url => ([Called (GenerateContent req)], Returned url)
      | None =>
          ([Called (GenerateContent req); logged (JsError (js "No blueprint generated"))],
           Threw (JsError (js "No blueprint generated")))
      end
  end.
Proof.
  unfold generateBlueprintImage. cbn [mbind prog_bind bind await try_catch run].
  destruct (host _) as [response|reason]; cbn [bind try_catch run]; [|done].
  by destruct (first_inline_url _).
Qed.

(** The loop returns the data URL of the first inline payload. *)
Lemma first_inline_url_spec (ps : list Part) :
  first_inline_url ps = data_url <$> first_inline ps.
Proof.
  induction ps as [|p ps IH]; cbn; [done|]. by destruct (inlineData p).
Qed.

Lemma first_inline_app_None (ps qs : list Part) :
  first_inline (ps ++ qs) = None -> first_inline ps = None.
Proof.
  induction ps as [|p ps IH]; cbn; [done|]. by destruct (inlineData p).
Qed.

(** The parts the loop goes over are the first of all the parts. *)
Lemma candidate_parts_first (response : GenerateContentResponse) :
  exists others, all_parts response = candidate_parts response ++ others.
Proof.
  unfold all_parts, candidate_parts.
  destruct (candidates response) as [[|c cs]|]; cbn; try by exists [].
  eexists.
  destruct (content c) as [ct|]; cbn; [|done]. by destruct (parts ct).
Qed.



Lemma data_url_nonempty (blob : Blob) : data_url blob <> [].
Proof. unfold data_url. cbn. discriminate. Qed.

(** ** C6 *)

(** A response whose image is in its second candidate: the response has
    an inline payload, and both functions throw all the same. *)
Lemma generate_image_ignores_second_candidate :
  first_inline (all_parts image_in_second_candidate)
    = Some {| mimeType := Some (js "image/png"); data := Some (js "iVBORw0KGgo") |} /\
  snd (run (U:=unit) (answering image_in_second_candidate true)
         (generateRenovationImage (js "New facade") (js "Altbau") Size2K))
    = Threw (JsError (js "No image generated")) /\
  snd (run (U:=unit) (answering image_in_second_candidate true)
         (generateBlueprintImage (js "Facade") (js "New facade") (js "Altbau")))
    = Threw (JsError (js "No blueprint generated")).
Proof. repeat split; vm_compute; reflexivity. Qed.

(** C6, as the code has it: both functions look at the parts of the
    first candidate only.  They return the data URL of the first of
    these parts that has inline data, and throw "No image generated" or
    "No blueprint generated" when none has; so they throw when no part
    of any candidate has inline data.  What they return is never the
    empty string. *)
Theorem generate_image_first_candidate :
  forall (U : Type) (host : Host) (prompt style phaseName description : jsstring)
         (size : ImageSize) (image_reply blueprint_reply : GenerateContentResponse),
    host (GenerateContent (image_request (fullPrompt prompt style) size))
      = Fulfilled image_reply ->
    host (GenerateContent (image_request (blueprint_fullPrompt phaseName description style) Size1K))
      = Fulfilled blueprint_reply ->
    let image := snd (run (U:=U) host (generateRenovationImage prompt style size)) in
    let blueprint := snd (run (U:=U) host (generateBlueprintImage phaseName description style)) in
    image = match first_inline (candidate_parts image_reply) with
            | Some blob => Returned (data_url blob)
            | None => Threw (JsError (js "No image generated"))
            end /\
    blueprint = match first_inline (candidate_parts blueprint_reply) with
                | Some blob => Returned (data_url blob)
                | None => Threw (JsError (js "No blueprint generated"))
                end /\
    (first_inline (all_parts image_reply) = None ->
     image = Threw (JsError (js "No image generated"))) /\
    (first_inline (all_parts blueprint_reply) = None ->
     blueprint = Threw (JsError (js "No blueprint generated"))) /\
    (forall url, image = Returned url \/ blueprint = Returned url -> url <> []).
Proof.
  intros U host prompt style phaseName description size image_reply blueprint_reply Hi Hb.
  cbn zeta.
  rewrite run_generateRenovationImage, run_generateBlueprintImage, Hi, Hb.
  rewrite !first_inline_url_spec.
  assert (forall response, first_inline (all_parts response) = None ->
                           first_inline (candidate_parts response) = None) as Hnone.
  { intros response. destruct (candidate_parts_first response) as [others ->].
    apply first_inline_app_None. }
  split; [|split; [|split; [|split]]].
  - by destruct (first_inline _).
  - by destruct (first_inline _).
  - intros Hall. by rewrite (Hnone _ Hall).
  - intros Hall. by rewrite (Hnone _ Hall).
  - intros url.
    destruct (first_inline (candidate_parts image_reply)) as [b1|],
             (first_inline (candidate_parts blueprint_reply)) as [b2|];
      cbn; intros [[= <-] | [= <-]]; apply data_url_nonempty.
Qed.

Lemma generate_image_first_candidate_witness :
  snd (run (U:=unit) (answering jpeg_after_text true)
         (generateRenovationImage (js "New facade") (js "Altbau") Size2K))
    = Returned (js "data:image/png;base64,/9j/4AAQSkZJRg") /\
  snd (run (U:=unit) (answering jpeg_after_text true)
         (generateBlueprintImage (js "Facade") (js "New facade") (js "Altbau")))
    = Returned (js "data:image/png;base64,/9j/4AAQSkZJRg").
Proof.
  pose proof (generate_image_first_candidate unit (answering jpeg_after_text true)
                (js "New facade") (js "Altbau") (js "Facade") (js "New facade") Size2K
                jpeg_after_text jpeg_after_text eq_refl eq_refl) as H.
  cbn zeta in H. destruct H as (Hi & Hb & _).
  split; [exact Hi | exact Hb].
Defined.

(** ** C10 *)



(* ===================================================================== *)
(** * Runs of composed programs *)
(* ===================================================================== *)

Section Runs.
Context {U : Type}.
Variable host : Host.

Lemma run_bind {A B : Type} (p : Prog U A) (f : A -> Prog U B) :
  run host (bind p f) =
  match snd (run host p) with
  | Returned a => (fst (run host p) ++ fst (run host (f a)), snd (run host (f a)))
  | Threw e => (fst (run host p), Threw e)
  end.
Proof using Type.
  induction p as [a | e | a k IH | c k IH]; cbn.
  - by destruct (run host (f a)).
  - done.
  - rewrite IH. destruct (run host k) as [tr [a'|e]]; cbn; [|done].
    by destruct (run host (f a')).
  - rewrite IH. destruct (run host (k (host c))) as [tr [a'|e]]; cbn; [|done].
    by destruct (run host (f a')).
Qed.

Lemma run_try_catch {A : Type} (p : Prog U A) (h : Thrown -> Prog U A) :
  run host (try_catch p h) =
  match snd (run host p) with
  | Returned a => (fst (run host p), Returned a)
  | Threw e => (fst (run host p) ++ fst (run host (h e)), snd (run host (h e)))
  end.
Proof using Type.
  induction p as [a | e | a k IH | c k IH]; cbn.
  - done.
  - by destruct (run host (h e)).
  - rewrite IH. destruct (run host k) as [tr [a'|e]]; cbn; [done|].
    by destruct (run host (h e)).
  - rewrite IH. destruct (run host (k (host c))) as [tr [a'|e]]; cbn; [done|].
    by destruct (run host (h e)).
Qed.

Lemma run_finally {A : Type} (p : Prog U A) (q : Prog U unit) :
  run host (finally p q) =
  (fst (run host p) ++ fst (run host q),
   match snd (run host q) with
   | Returned _ => snd (run host p)
   | Threw e => Threw e
   end).
Proof using Type.
  induction p as [a | e | a k IH | c k IH]; cbn.
  - rewrite run_bind. destruct (run host q) as [tr [[]|e]]; cbn; [|done].
    by rewrite app_nil_r.
  - rewrite run_bind. destruct (run host q) as [tr [[]|e']]; cbn; [|done].
    by rewrite app_nil_r.
  - rewrite IH. by destruct (run host k).
  - rewrite IH. by destruct (run host (k (host c))).
Qed.

Lemma updates_app (tr1 tr2 : list (Event U)) :
  updates (tr1 ++ tr2) = updates tr1 ++ updates tr2.
Proof using Type.
  induction tr1 as [|[c|[l e|m|u]] tr1 IH]; cbn; try done. by rewrite IH.
Qed.

Lemma requests_app (tr1 tr2 : list (Event U)) :
  requests (tr1 ++ tr2) = requests tr1 ++ requests tr2.
Proof using Type.
  induction tr1 as [|[[req| |]|a] tr1 IH]; cbn; try done. by rewrite IH.
Qed.

Lemma alerts_app (tr1 tr2 : list (Event U)) :
  alerts (tr1 ++ tr2) = alerts tr1 ++ alerts tr2.
Proof using Type.
  induction tr1 as [|[c|[l e|m|u]] tr1 IH]; cbn; try done. by rewrite IH.
Qed.

Lemma apply_events_updates {S : Type} (apply : U -> S -> S) (tr : list (Event U)) (s : S) :
  apply_events apply tr s = foldl (fun s u => apply u s) s (updates tr).
Proof using Type.
  revert s. induction tr as [|[c|[l e|m|u]] tr IH]; intros s; cbn; done.
Qed.

End Runs.

(* ===================================================================== *)
(** * The dashboard's handlers *)
(* ===================================================================== *)

Section DashboardRuns.
Variable host : Host.
Variable window : Window.
Variable render : Dashboard.t.

Lemma run_checkApiKey :
  run host (Dashboard.checkApiKey window) =
  match aistudio window with
  | Some studio =>
      if has_hasSelectedApiKey studio then
        match host HasSelectedApiKey with
        | Rejected reason => ([Called HasSelectedApiKey], Threw (Rejection reason))
        | Fulfilled true => ([Called HasSelectedApiKey], Returned true)
        | Fulfilled false =>
            match host OpenSelectKey with
            | Fulfilled _ => ([Called HasSelectedApiKey; Called OpenSelectKey], Returned true)
            | Rejected reason =>
                ([Called HasSelectedApiKey; Called OpenSelectKey;
                  Did (ConsoleError (js "Failed to select key") (Rejection reason))],
                 Returned false)
            end
        end
      else ([], Returned true)
  | None => ([], Returned true)
  end.
Proof using Type.
  unfold Dashboard.checkApiKey.
  destruct (aistudio window) as [studio|]; [|done].
  destruct (has_hasSelectedApiKey studio); [|done].
  cbn [mbind prog_bind bind await run].
  destruct (host HasSelectedApiKey) as [[|]|reason]; cbn [bind negb try_catch run mret]; try done.
  by destruct (host OpenSelectKey) as [[]|reason].
Qed.

(** The credential check updates nothing and sends nothing to the
    generative service. *)
Lemma checkApiKey_quiet :
  updates (fst (run host (Dashboard.checkApiKey window))) = [] /\
  requests (fst (run host (Dashboard.checkApiKey window))) = [] /\
  alerts (fst (run host (Dashboard.checkApiKey window))) = [].
Proof using Type.
  rewrite run_checkApiKey.
  destruct (aistudio window) as [studio|]; [|done].
  destruct (has_hasSelectedApiKey studio); [|done].
  destruct (host HasSelectedApiKey) as [[|]|reason]; try done.
  by destruct (host OpenSelectKey) as [[]|reason].
Qed.

(** The service functions update nothing and alert nobody. *)
Lemma generateRenovationImage_quiet (prompt style : jsstring) (size : ImageSize) :
  updates (fst (run (U:=Dashboard.Update) host (generateRenovationImage prompt style size))) = [] /\
  alerts (fst (run (U:=Dashboard.Update) host (generateRenovationImage prompt style size))) = [] /\
  requests (fst (run (U:=Dashboard.Update) host (generateRenovationImage prompt style size)))
    = [image_request (fullPrompt prompt style) size].
Proof using Type.
  rewrite run_generateRenovationImage.
  destruct (host _) as [response|reason]; [|done].
  by destruct (first_inline_url _).
Qed.

Lemma generateBlueprintImage_quiet (phaseName description style : jsstring) :
  updates (fst (run (U:=Dashboard.Update) host
                  (generateBlueprintImage phaseName description style))) = [] /\
  alerts (fst (run (U:=Dashboard.Update) host
                 (generateBlueprintImage phaseName description style))) = [] /\
  requests (fst (run (U:=Dashboard.Update) host
                   (generateBlueprintImage phaseName description style)))
    = [image_request (blueprint_fullPrompt phaseName description style) Size1K].
Proof using Type.
  rewrite run_generateBlueprintImage.
  destruct (host _) as [response|reason]; [|done].
  by destruct (first_inline_url _).
Qed.

(** A run of the image handler: the credential check, then, if it lets
    the call through, the flag raised, the service call, the image stored
    or the failure reported, and the flag lowered. *)
Lemma run_handleGenerateImage (index : nat) (description : jsstring) :
  let check := run host (Dashboard.checkApiKey window) in
  let call := run (U:=Dashboard.Update) host
                (generateRenovationImage description
                   (buildingStyle (Dashboard.plan render)) (Dashboard.imageSize render)) in
  run host (Dashboard.handleGenerateImage window render index description) =
  match snd check with
  | Threw e => (fst check, Threw e)
  | Returned false => (fst check, Returned tt)
  | Returned true =>
      (fst check
       ++ Did (SetState (Dashboard.setGeneratingPhase (fun prev => <[index := true]> prev)))
       :: fst call
       ++ match snd call with
          | Returned imageUrl =>
              [Did (SetState (Dashboard.setPhaseImages (fun prev => <[index := imageUrl]> prev)))]
          | Threw error =>
              [Did (ConsoleError (js "Failed to generate image") error);
               Did (Alert (js "Could not generate image. Please ensure you have a valid paid API key selected."))]
          end
       ++ [Did (SetState (Dashboard.setGeneratingPhase (fun prev => <[index := false]> prev)))],
       Returned tt)
  end.
Proof using Type.
  cbn zeta. unfold Dashboard.handleGenerateImage.
  unfold mbind, prog_bind. rewrite run_bind.
  destruct (run host (Dashboard.checkApiKey window)) as [tr0 [[|]|e]]; cbn [fst snd negb]; [|by rewrite app_nil_r|done].
  rewrite run_bind. cbn [Dashboard.set perform run fst snd app].
  rewrite run_finally, run_try_catch, run_bind.
  destruct (run host (generateRenovationImage _ _ _)) as [tr [url|e]]; cbn.
  - by rewrite <- !app_assoc.
  - by rewrite <- !app_assoc.
Qed.

Lemma run_handleGenerateBlueprint (index : nat) (name description : jsstring) :
  let check := run host (Dashboard.checkApiKey window) in
  let call := run (U:=Dashboard.Update) host
                (generateBlueprintImage name description
                   (buildingStyle (Dashboard.plan render))) in
  run host (Dashboard.handleGenerateBlueprint window render index name description) =
  match snd check with
  | Threw e => (fst check, Threw e)
  | Returned false => (fst check, Returned tt)
  | Returned true =>
      (fst check
       ++ Did (SetState (Dashboard.setGeneratingBlueprint (fun prev => <[index := true]> prev)))
       :: fst call
       ++ match snd call with
          | Returned imageUrl =>
              [Did (SetState (Dashboard.setBlueprints (fun prev => <[index := imageUrl]> prev)))]
          | Threw error =>
              [Did (ConsoleError (js "Failed to generate blueprint") error);
               Did (Alert (js "Could not generate blueprint."))]
          end
       ++ [Did (SetState (Dashboard.setGeneratingBlueprint (fun prev => <[index := false]> prev)))],
       Returned tt)
  end.
Proof using Type.
  cbn zeta. unfold Dashboard.handleGenerateBlueprint.
  unfold mbind, prog_bind. rewrite run_bind.
  destruct (run host (Dashboard.checkApiKey window)) as [tr0 [[|]|e]]; cbn [fst snd negb]; [|by rewrite app_nil_r|done].
  rewrite run_bind. cbn [Dashboard.set perform run fst snd app].
  rewrite run_finally, run_try_catch, run_bind.
  destruct (run host (generateBlueprintImage _ _ _)) as [tr [url|e]]; cbn.
  - by rewrite <- !app_assoc.
  - by rewrite <- !app_assoc.
Qed.

End DashboardRuns.

(** Each of the four per-phase setters, with an updater that writes one
    key, is local to that key. *)
Lemma local_to_setters (i : nat) :
  (forall v, local_to i (Dashboard.setPhaseImages (fun prev => <[i := v]> prev))) /\
  (forall v, local_to i (Dashboard.setGeneratingPhase (fun prev => <[i := v]> prev))) /\
  (forall v, local_to i (Dashboard.setBlueprints (fun prev => <[i := v]> prev))) /\
  (forall v, local_to i (Dashboard.setGeneratingBlueprint (fun prev => <[i := v]> prev))).
Proof.
  repeat split; try done; intros j Hj; unfold Dashboard.slot; cbn;
    by rewrite lookup_insert_ne.
Qed.

(** The updates of a run of either handler: none, or the flag raised, the
    asset stored if the service call returned, and the flag lowered. *)
Lemma handleGenerateImage_updates (host : Host) (window : Window) (render : Dashboard.t)
    (index : nat) (description : jsstring) :
  let call := run (U:=Dashboard.Update) host
                (generateRenovationImage description
                   (buildingStyle (Dashboard.plan render)) (Dashboard.imageSize render)) in
  let us := updates (fst (run host (Dashboard.handleGenerateImage window render index description))) in
  us = [] \/
  us = Dashboard.setGeneratingPhase (fun prev => <[index := true]> prev)
       :: match snd call with
          | Returned imageUrl => [Dashboard.setPhaseImages (fun prev => <[index := imageUrl]> prev)]
          | Threw _ => []
          end
       ++ [Dashboard.setGeneratingPhase (fun prev => <[index := false]> prev)].
Proof.
  cbn zeta. rewrite run_handleGenerateImage. cbn zeta.
  destruct (checkApiKey_quiet host window) as (Hu & _ & _).
  destruct (run host (Dashboard.checkApiKey window)) as [tr0 [[|]|e]]; cbn [fst snd] in *;
    [|by left|by left].
  right. rewrite updates_app, Hu. cbn [app updates]. rewrite updates_app.
  destruct (generateRenovationImage_quiet host description
              (buildingStyle (Dashboard.plan render)) (Dashboard.imageSize render)) as (Hq & _ & _).
  rewrite Hq. by destruct (snd (run host (generateRenovationImage _ _ _))).
Qed.

Lemma handleGenerateBlueprint_updates (host : Host) (window : Window) (render : Dashboard.t)
    (index : nat) (name description : jsstring) :
  let call := run (U:=Dashboard.Update) host
                (generateBlueprintImage name description
                   (buildingStyle (Dashboard.plan render))) in
  let us := updates (fst (run host
                            (Dashboard.handleGenerateBlueprint window render index name description))) in
  us = [] \/
  us = Dashboard.setGeneratingBlueprint (fun prev => <[index := true]> prev)
       :: match snd call with
          | Returned imageUrl => [Dashboard.setBlueprints (fun prev => <[index := imageUrl]> prev)]
          | Threw _ => []
          end
       ++ [Dashboard.setGeneratingBlueprint (fun prev => <[index := false]> prev)].
Proof.
  cbn zeta. rewrite run_handleGenerateBlueprint. cbn zeta.
  destruct (checkApiKey_quiet host window) as (Hu & _ & _).
  destruct (run host (Dashboard.checkApiKey window)) as [tr0 [[|]|e]]; cbn [fst snd] in *;
    [|by left|by left].
  right. rewrite updates_app, Hu. cbn [app updates]. rewrite updates_app.
  destruct (generateBlueprintImage_quiet host name description
              (buildingStyle (Dashboard.plan render))) as (Hq & _ & _).
  rewrite Hq. by destruct (snd (run host (generateBlueprintImage _ _ _))).
Qed.

Lemma foldl_local_to (i : nat) (us : list Dashboard.Update) (d : Dashboard.t) :
  Forall (local_to i) us ->
  let d' := foldl (fun s u => Dashboard.apply u s) d us in
  Dashboard.plan d' = Dashboard.plan d /\
  Dashboard.details d' = Dashboard.details d /\
  forall j, j <> i -> Dashboard.slot d' j = Dashboard.slot d j.
Proof.
  intros Hus. revert d. induction Hus as [|u us Hu _ IH]; intros d; cbn; [done|].
  destruct (IH (Dashboard.apply u d)) as (Hp & Hd & Hs).
  destruct (Hu d) as (Hp' & Hd' & Hs').
  split; [congruence|]. split; [congruence|].
  intros j Hj. rewrite Hs by done. by apply Hs'.
Qed.

Lemma foldl_keeps_assets (us : list Dashboard.Update) (d : Dashboard.t) :
  Forall keeps_assets us ->
  let d' := foldl (fun s u => Dashboard.apply u s) d us in
  Dashboard.phaseImages d' = Dashboard.phaseImages d /\
  Dashboard.blueprints d' = Dashboard.blueprints d.
Proof.
  intros Hus. revert d. induction Hus as [|u us Hu _ IH]; intros d; cbn; [done|].
  destruct (IH (Dashboard.apply u d)) as (Hp & Hb).
  destruct (Hu d) as (Hp' & Hb').
  split; congruence.
Qed.

(** ** C7 *)

(** C7: every state update a call for phase [index] makes, whatever
    state it lands on, leaves the plan, the details and the four entries
    of every other phase as they are; when the service call of it fails,
    its updates leave both asset maps as they are.  So after the call the
    dashboard has the plan it had, other phases have the entries they
    had, and after a failed call the phase has the asset it had: none, if
    it had none. *)
Theorem dashboard_generation_frame :
  forall (host : Host) (window : Window) (render : Dashboard.t) (index : nat)
         (name description : jsstring),
    let style := buildingStyle (Dashboard.plan render) in
    let image := fst (run host (Dashboard.handleGenerateImage window render index description)) in
    let blueprint :=
      fst (run host (Dashboard.handleGenerateBlueprint window render index name description)) in
    let image_failed :=
      exists e, snd (run (U:=Dashboard.Update) host
                       (generateRenovationImage description style (Dashboard.imageSize render)))
                = Threw e in
    let blueprint_failed :=
      exists e, snd (run (U:=Dashboard.Update) host
                       (generateBlueprintImage name description style)) = Threw e in
    Forall (local_to index) (updates image) /\
    Forall (local_to index) (updates blueprint) /\
    (image_failed -> Forall keeps_assets (updates image)) /\
    (blueprint_failed -> Forall keeps_assets (updates blueprint)) /\
    forall d : Dashboard.t,
      let d1 := apply_events Dashboard.apply image d in
      let d2 := apply_events Dashboard.apply blueprint d in
      Dashboard.plan d1 = Dashboard.plan d /\
      Dashboard.plan d2 = Dashboard.plan d /\
      (forall j, j <> index ->
         Dashboard.slot d1 j = Dashboard.slot d j /\ Dashboard.slot d2 j = Dashboard.slot d j) /\
      (image_failed ->
         Dashboard.phaseImages d1 !! index = Dashboard.phaseImages d !! index /\
         Dashboard.blueprints d1 !! index = Dashboard.blueprints d !! index) /\
      (blueprint_failed ->
         Dashboard.phaseImages d2 !! index = Dashboard.phaseImages d !! index /\
         Dashboard.blueprints d2 !! index = Dashboard.blueprints d !! index).
Proof.
  intros host window render index name description. cbn zeta.
  destruct (local_to_setters index) as (Lpi & Lgp & Lbp & Lgb).
  assert (Forall (local_to index)
            (updates (fst (run host (Dashboard.handleGenerateImage window render index description)))))
    as Hli.
  { destruct (handleGenerateImage_updates host window render index description) as [-> | ->];
      [constructor|].
    constructor; [apply Lgp|]. apply Forall_app.
    split; [|constructor; [apply Lgp | constructor]].
    destruct (snd (run host (generateRenovationImage _ _ _)));
      [constructor; [apply Lpi | constructor] | constructor]. }
  assert (Forall (local_to index)
            (updates (fst (run host
               (Dashboard.handleGenerateBlueprint window render index name description)))))
    as Hlb.
  { destruct (handleGenerateBlueprint_updates host window render index name description)
      as [-> | ->]; [constructor|].
    constructor; [apply Lgb|]. apply Forall_app.
    split; [|constructor; [apply Lgb | constructor]].
    destruct (snd (run host (generateBlueprintImage _ _ _)));
      [constructor; [apply Lbp | constructor] | constructor]. }
  assert ((exists e, snd (run (U:=Dashboard.Update) host
                            (generateRenovationImage description
                               (buildingStyle (Dashboard.plan render))
                               (Dashboard.imageSize render))) = Threw e) ->
          Forall keeps_assets
            (updates (fst (run host (Dashboard.handleGenerateImage window render index description)))))
    as Hki.
  { intros [e He].
    destruct (handleGenerateImage_updates host window render index description) as [-> | ->];
      [constructor|].
    rewrite He. cbn [app]. by repeat (constructor; [done|]). }
  assert ((exists e, snd (run (U:=Dashboard.Update) host
                            (generateBlueprintImage name description
                               (buildingStyle (Dashboard.plan render)))) = Threw e) ->
          Forall keeps_assets
            (updates (fst (run host
               (Dashboard.handleGenerateBlueprint window render index name description)))))
    as Hkb.
  { intros [e He].
    destruct (handleGenerateBlueprint_updates host window render index name description)
      as [-> | ->]; [constructor|].
    rewrite He. cbn [app]. by repeat (constructor; [done|]). }
  split; [done|]. split; [done|]. split; [done|]. split; [done|].
  intros d. rewrite !apply_events_updates.
  destruct (foldl_local_to index _ d Hli) as (Hp1 & _ & Hs1).
  destruct (foldl_local_to index _ d Hlb) as (Hp2 & _ & Hs2).
  split; [done|]. split; [done|]. split; [|split].
  - intros j Hj. split; [by apply Hs1 | by apply Hs2].
  - intros Hfail. destruct (foldl_keeps_assets _ d (Hki Hfail)) as [-> ->]. done.
  - intros Hfail. destruct (foldl_keeps_assets _ d (Hkb Hfail)) as [-> ->]. done.
Qed.

Lemma dashboard_generation_frame_witness :
  Dashboard.phaseImages
    (apply_events Dashboard.apply
       (fst (run (answering image_in_second_candidate true)
               (Dashboard.handleGenerateImage plain_window sample_dashboard 0
                  (js "Insulate the facade"))))
       sample_dashboard) !! 0
  = Dashboard.phaseImages sample_dashboard !! 0 /\
  Dashboard.phaseImages sample_dashboard !! 0 = None /\
  Dashboard.plan
    (apply_events Dashboard.apply
       (fst (run (answering image_in_second_candidate true)
               (Dashboard.handleGenerateImage plain_window sample_dashboard 0
                  (js "Insulate the facade"))))
       sample_dashboard)
  = sample_plan.
Proof.
  pose proof (dashboard_generation_frame (answering image_in_second_candidate true)
                plain_window sample_dashboard 0
                (js "Facade") (js "Insulate the facade")) as H.
  cbn zeta in H. destruct H as (_ & _ & _ & _ & H).
  destruct (H sample_dashboard) as (Hplan & _ & _ & Hfail & _).
  split; [|split].
  - apply Hfail. exists (JsError (js "No image generated")). vm_compute. reflexivity.
  - reflexivity.
  - exact Hplan.
Defined.

(** ** C9 *)

(** C9: without the host's credential hook the check returns true
    without awaiting anything, and each handler goes on to send its
    request to the generative service, once. *)
Theorem checkApiKey_without_hook :
  forall (host : Host) (window : Window) (render : Dashboard.t) (index : nat)
         (name description : jsstring),
    hook_absent window ->
    let style := buildingStyle (Dashboard.plan render) in
    run host (Dashboard.checkApiKey window) = ([], Returned true) /\
    requests (fst (run host (Dashboard.handleGenerateImage window render index description)))
      = [image_request (fullPrompt description style) (Dashboard.imageSize render)] /\
    requests (fst (run host
                     (Dashboard.handleGenerateBlueprint window render index name description)))
      = [image_request (blueprint_fullPrompt name description style) Size1K].
Proof.
  intros host window render index name description Habsent. cbn zeta.
  assert (run host (Dashboard.checkApiKey window) = ([], Returned true)) as Hcheck.
  { rewrite run_checkApiKey. unfold hook_absent in Habsent.
    destruct (aistudio window) as [studio|]; [|done]. by rewrite Habsent. }
  split; [done|]. split.
  - rewrite run_handleGenerateImage. cbn zeta. rewrite Hcheck. cbn [fst snd app requests].
    rewrite requests_app.
    destruct (generateRenovationImage_quiet host description
                (buildingStyle (Dashboard.plan render)) (Dashboard.imageSize render)) as (_ & _ & ->).
    by destruct (snd (run host (generateRenovationImage _ _ _))).
  - rewrite run_handleGenerateBlueprint. cbn zeta. rewrite Hcheck. cbn [fst snd app requests].
    rewrite requests_app.
    destruct (generateBlueprintImage_quiet host name description
                (buildingStyle (Dashboard.plan render))) as (_ & _ & ->).
    by destruct (snd (run host (generateBlueprintImage _ _ _))).
Qed.

Lemma checkApiKey_without_hook_witness :
  run (rejecting AuthFailure) (Dashboard.checkApiKey plain_window) = ([], Returned true) /\
  requests (fst (run (rejecting AuthFailure)
                   (Dashboard.handleGenerateImage plain_window
                      sample_dashboard 1 (js "Install a heat pump"))))
    = [image_request (fullPrompt (js "Install a heat pump") (js "Altbau")) Size1K].
Proof.
  destruct (checkApiKey_without_hook (rejecting AuthFailure) plain_window
              sample_dashboard 1
              (js "Heating") (js "Install a heat pump") I) as (Hcheck & Himage & _).
  split; [exact Hcheck | exact Himage].
Defined.

(* ===================================================================== *)
(** * Handlers in flight together *)
(* ===================================================================== *)

Lemma confined_bind {A B : Type} (i : nat) (p : Prog Dashboard.Update A)
    (f : A -> Prog Dashboard.Update B) :
  confined i p -> (forall a, confined i (f a)) -> confined i (bind p f).
Proof.
  intros Hp Hf. induction p as [a | e | [l e|m|u] k IH | c k IH]; cbn in *; try done.
  - by apply IH.
  - by apply IH.
  - destruct Hp as [Hu Hk]. split; [done|]. by apply IH.
  - intros r. by apply IH.
Qed.

Lemma confined_try_catch {A : Type} (i : nat) (p : Prog Dashboard.Update A)
    (h : Thrown -> Prog Dashboard.Update A) :
  confined i p -> (forall e, confined i (h e)) -> confined i (try_catch p h).
Proof.
  intros Hp Hh. induction p as [a | e | [l e|m|u] k IH | c k IH]; cbn in *; try done.
  - by apply IH.
  - by apply IH.
  - destruct Hp as [Hu Hk]. split; [done|]. by apply IH.
  - intros r. by apply IH.
Qed.

Lemma confined_finally {A : Type} (i : nat) (p : Prog Dashboard.Update A)
    (q : Prog Dashboard.Update unit) :
  confined i p -> confined i q -> confined i (finally p q).
Proof.
  intros Hp Hq. induction p as [a | e | [l e|m|u] k IH | c k IH]; cbn in *.
  - by apply confined_bind.
  - by apply confined_bind.
  - by apply IH.
  - by apply IH.
  - destruct Hp as [Hu Hk]. split; [done|]. by apply IH.
  - intros r. by apply IH.
Qed.

Lemma confined_await (i : nat) (c : Call) : confined i (await (U:=Dashboard.Update) c).
Proof. cbn. by intros [x|reason]. Qed.

Lemma confined_checkApiKey (i : nat) (window : Window) :
  confined i (Dashboard.checkApiKey window).
Proof.
  unfold Dashboard.checkApiKey.
  destruct (aistudio window) as [studio|]; [|done].
  destruct (has_hasSelectedApiKey studio); [|done].
  cbn. intros [[|]|reason]; cbn; try done. by intros [[]|reason'].
Qed.

Lemma confined_generateRenovationImage (i : nat) (prompt style : jsstring) (size : ImageSize) :
  confined i (generateRenovationImage (U:=Dashboard.Update) prompt style size).
Proof.
  cbn. intros [response|reason]; cbn; [|done]. by destruct (first_inline_url _).
Qed.

Lemma confined_generateBlueprintImage (i : nat) (phaseName description style : jsstring) :
  confined i (generateBlueprintImage (U:=Dashboard.Update) phaseName description style).
Proof.
  cbn. intros [response|reason]; cbn; [|done]. by destruct (first_inline_url _).
Qed.

(** Both handlers, called for a phase, are confined to it. *)
Lemma confined_handlers (window : Window) (render : Dashboard.t) (index : nat)
    (name description : jsstring) :
  confined index (Dashboard.handleGenerateImage window render index description) /\
  confined index (Dashboard.handleGenerateBlueprint window render index name description).
Proof.
  destruct (local_to_setters index) as (Lpi & Lgp & Lbp & Lgb).
  split.
  - unfold Dashboard.handleGenerateImage, mbind, prog_bind.
    apply confined_bind; [apply confined_checkApiKey|]. intros [|]; cbn [negb]; [|done].
    apply confined_bind; [cbn; split; [apply Lgp | done]|]. intros _.
    apply confined_finally; [|cbn; split; [apply Lgp | done]].
    apply confined_try_catch; [|done].
    apply confined_bind; [apply confined_generateRenovationImage|].
    intros url. cbn. split; [apply Lpi | done].
  - unfold Dashboard.handleGenerateBlueprint, mbind, prog_bind.
    apply confined_bind; [apply confined_checkApiKey|]. intros [|]; cbn [negb]; [|done].
    apply confined_bind; [cbn; split; [apply Lgb | done]|]. intros _.
    apply confined_finally; [|cbn; split; [apply Lgb | done]].
    apply confined_try_catch; [|done].
    apply confined_bind; [apply confined_generateBlueprintImage|].
    intros url. cbn. split; [apply Lbp | done].
Qed.

(** A confined handler that runs until it suspends has changed nothing
    outside its phase, and what is left of it is confined. *)
Lemma advance_confined (i : nat) (p : Prog Dashboard.Update unit) (d : Dashboard.t) :
  confined i p ->
  confined i (snd (advance Dashboard.apply p d)) /\
  Dashboard.plan (fst (advance Dashboard.apply p d)) = Dashboard.plan d /\
  forall j, j <> i ->
    Dashboard.slot (fst (advance Dashboard.apply p d)) j = Dashboard.slot d j.
Proof.
  revert d. induction p as [a | e | [l e|m|u] k IH | c k IH]; intros d Hp; cbn in *; try done.
  - by apply IH.
  - by apply IH.
  - destruct Hp as [Hu Hk]. destruct (IH (Dashboard.apply u d) Hk) as (Hc & Hplan & Hslot).
    destruct (Hu d) as (Hplan' & _ & Hslot').
    split; [done|]. split; [congruence|].
    intros j Hj. rewrite Hslot by done. by apply Hslot'.
Qed.

(** X7: handlers for the other phases, however many are in flight and however
    their promises settle, leave the entries of phase [j] and the plan as
    they are. *)
Theorem dashboard_isolation (window : Window) (j : nat)
    (l l' : Loop Dashboard.Update Dashboard.t) :
  rtc (others_move window j) l l' ->
  Forall (fun p => exists i, i <> j /\ confined i p) (pending l) ->
  Dashboard.slot (state l') j = Dashboard.slot (state l) j /\
  Dashboard.plan (state l') = Dashboard.plan (state l) /\
  Forall (fun p => exists i, i <> j /\ confined i p) (pending l').
Proof.
  assert (forall (l : Loop Dashboard.Update Dashboard.t) i p waiting,
             i <> j -> confined i p ->
             Forall (fun p => exists i, i <> j /\ confined i p) waiting ->
             let l1 := {| state := fst (advance Dashboard.apply p (state l));
                          pending := park (snd (advance Dashboard.apply p (state l))) waiting |} in
             Dashboard.slot (state l1) j = Dashboard.slot (state l) j /\
             Dashboard.plan (state l1) = Dashboard.plan (state l) /\
             Forall (fun p => exists i, i <> j /\ confined i p) (pending l1)) as Hstep.
  { intros l0 i p waiting Hi Hp Hw. cbn.
    destruct (advance_confined i p (state l0) Hp) as (Hc & Hplan & Hslot).
    split; [by apply Hslot|]. split; [done|].
    unfold park. destruct (suspended _); [|done].
    apply Forall_app. split; [done|]. constructor; [|constructor]. by exists i. }
  induction 1 as [l | l l1 l2 Hmove _ IH]; intros Hpending; [done|].
  assert (Dashboard.slot (state l1) j = Dashboard.slot (state l) j /\
          Dashboard.plan (state l1) = Dashboard.plan (state l) /\
          Forall (fun p => exists i, i <> j /\ confined i p) (pending l1)) as (Hs & Hp & Hw).
  { destruct Hmove as [l i description Hi | l i name description Hi | l k host l1 Hsettle].
    - unfold spawn.
      destruct (advance Dashboard.apply _ (state l)) as [s p'] eqn:Hadv.
      pose proof (Hstep l i _ (pending l) Hi
                    (proj1 (confined_handlers window (state l) i [] description)) Hpending) as H.
      cbn zeta in H. by rewrite Hadv in H.
    - unfold spawn.
      destruct (advance Dashboard.apply _ (state l)) as [s p'] eqn:Hadv.
      pose proof (Hstep l i _ (pending l) Hi
                    (proj2 (confined_handlers window (state l) i name description)) Hpending) as H.
      cbn zeta in H. by rewrite Hadv in H.
    - unfold settle in Hsettle.
      destruct (pending l !! k) as [[a|e|a q|c q]|] eqn:Hk; try done.
      destruct (advance Dashboard.apply (q (host c)) (state l)) as [s p'] eqn:Hadv.
      injection Hsettle as <-.
      destruct (proj1 (Forall_lookup _ _) Hpending k _ Hk) as (i & Hi & Hc).
      pose proof (Hstep l i (q (host c)) (delete k (pending l)) Hi (Hc (host c))) as H.
      cbn zeta in H. rewrite Hadv in H. apply H.
      by apply Forall_delete. }
  destruct (IH Hw) as (Hs' & Hp' & Hw').
  split; [congruence|]. split; [congruence|done].
Qed.

(* ===================================================================== *)
(** * The application shell: reset *)
(* ===================================================================== *)

(** What the reset handler does on any state: the step, the images, the
    plan and the details go back to their first values; the error
    message, the loading flag and the handlers in flight are left as
    they are. *)
Lemma handleReset_state (l : Loop App.Update App.t) :
  spawn App.apply App.handleReset l =
  {| state := {| App.step := 1;
                 App.isLoading := App.isLoading (state l);
                 App.error := App.error (state l);
                 App.images := [];
                 App.details := App.defaults;
                 App.plan := None |};
     pending := pending l |}.
Proof. done. Qed.

(** So a reset gives back the first state when no error message is
    stored and nothing is loading. *)
Lemma handleReset_initial (l : Loop App.Update App.t) :
  App.error (state l) = None ->
  App.isLoading (state l) = false ->
  state (spawn App.apply App.handleReset l) = App.initial.
Proof. intros He Hl. rewrite handleReset_state. cbn. by rewrite He, Hl. Qed.

(** The Generate button stays enabled while a request is loading: the
    [disabled] it is passed overrides the one computed from
    [isLoading]. *)
Lemma generate_enabled_while_loading (s : App.t) :
  address (App.details s) <> [] ->
  App.images s <> [] ->
  App.generate_disabled s = false.
Proof.
  intros Ha Hi. unfold App.generate_disabled, Button.disabled.
  rewrite bool_decide_eq_false_2 by done.
  rewrite bool_decide_eq_false_2; [done|].
  by destruct (App.images s).
Qed.

(** The analysis handler, once past its two checks, raises the loading
    flag, clears the error message and waits for the plan service. *)
Lemma handleAnalysis_waits (Number_toString : number -> jsstring) (render s : App.t) :
  App.images render <> [] ->
  address (App.details render) <> [] ->
  let after := advance App.apply (App.handleAnalysis Number_toString render) s in
  awaiting_plan (snd after) /\
  App.isLoading (fst after) = true /\
  App.error (fst after) = None /\
  App.step (fst after) = App.step s /\
  App.plan (fst after) = App.plan s.
Proof.
  intros Hi Ha. cbn zeta. unfold App.handleAnalysis.
  rewrite bool_decide_eq_false_2 by (by destruct (App.images render)).
  rewrite bool_decide_eq_false_2 by done.
  cbn. split; [|done].
  eexists (GenerateContent _), _. split; [reflexivity|].
  intros [response|reason] s0; cbn; [|by auto].
  destruct (falsy _); cbn; [by auto|].
  destruct (JSON_parse _); cbn; by auto.
Qed.

(** An update of the details or of the images keeps what a calm session
    keeps. *)
Lemma at_most_one_in_flight_other (l : Loop App.Update App.t) (u : App.Update) :
  (exists d, u = App.setDetails d) \/ (exists f, u = App.setImages f) ->
  at_most_one_in_flight l ->
  at_most_one_in_flight (spawn App.apply (App.set u) l).
Proof.
  intros Hu Hinv.
  assert (spawn App.apply (App.set u) l
          = {| state := App.apply u (state l); pending := pending l |}) as -> by done.
  destruct Hu as [[d ->] | [f ->]]; exact Hinv.
Qed.

Lemma react_at_most_one_in_flight (Number_toString : number -> jsstring)
    (l l' : Loop App.Update App.t) (i : App.Input) :
  at_most_one_in_flight l ->
  (i = App.ClickGenerate -> App.isLoading (state l) = false) ->
  App.react Number_toString l i = Some l' ->
  at_most_one_in_flight l'.
Proof.
  intros Hinv Hcalm Hreact.
  destruct i as [a | x | x | c | img | image_id | | | k host]; cbn [App.react] in Hreact.
  - unfold App.with_details in Hreact. destruct (App.form_shown _); [|done].
    injection Hreact as <-. apply at_most_one_in_flight_other; [|done]. left. by eexists.
  - unfold App.with_details in Hreact. destruct (App.form_shown _); [|done].
    injection Hreact as <-. apply at_most_one_in_flight_other; [|done]. left. by eexists.
  - unfold App.with_details in Hreact. destruct (App.form_shown _); [|done].
    injection Hreact as <-. apply at_most_one_in_flight_other; [|done]. left. by eexists.
  - unfold App.with_details in Hreact. destruct (App.form_shown _); [|done].
    injection Hreact as <-. apply at_most_one_in_flight_other; [|done]. left. by eexists.
  - injection Hreact as <-. apply at_most_one_in_flight_other; [|done]. right. by eexists.
  - destruct (App.form_shown _); [|done].
    injection Hreact as <-. apply at_most_one_in_flight_other; [|done]. right. by eexists.
  - destruct (App.form_shown (state l)) eqn:Hform; [|done].
    destruct (App.generate_disabled (state l)) eqn:Hdis; [done|].
    injection Hreact as <-.
    specialize (Hcalm eq_refl).
    destruct Hinv as [(Hpend & _ & _) | (waiting & _ & _ & Hload & _)]; [|congruence].
    unfold App.generate_disabled, Button.disabled in Hdis.
    apply orb_false_elim in Hdis as [Haddr Himgs].
    apply bool_decide_eq_false in Haddr, Himgs.
    assert (App.images (state l) <> []) as Hi by (by destruct (App.images (state l))).
    destruct (handleAnalysis_waits Number_toString (state l) (state l) Hi Haddr)
      as (Hwait & Hload & Herr & Hstep & _).
    right. unfold spawn.
    destruct (advance App.apply _ (state l)) as [s p'] eqn:Hadv. cbn [fst snd] in *.
    exists p'. cbn [state pending]. rewrite Hpend.
    destruct Hwait as (c & q & -> & Hq).
    split; [done|]. split; [by exists c, q|]. split; [done|]. split; [done|].
    rewrite Hstep. unfold App.form_shown in Hform. by apply bool_decide_eq_true in Hform.
  - destruct (App.dashboard_shown (state l)) eqn:Hshown; [|done].
    injection Hreact as <-. rewrite handleReset_state.
    unfold App.dashboard_shown in Hshown. apply andb_prop in Hshown as [Hstep _].
    apply bool_decide_eq_true in Hstep.
    destruct Hinv as [(Hpend & Hload & Herr) | (waiting & _ & _ & _ & _ & Hone)]; [|congruence].
    left. cbn. by rewrite Hpend.
  - unfold settle in Hreact.
    destruct Hinv as [(Hpend & _ & _) | (waiting & Hpend & (c & q & -> & Hq) & Hload & Herr & Hstep)].
    { by rewrite Hpend in Hreact. }
    rewrite Hpend in Hreact. destruct k as [|k]; [|done]. cbn in Hreact.
    destruct (Hq (host c) (state l)) as (Hsusp & Hload' & Hcases).
    destruct (advance App.apply (q (host c)) (state l)) as [s p'] eqn:Hadv.
    cbn [fst snd] in *. injection Hreact as <-.
    left. cbn [state pending]. unfold park. rewrite Hsusp.
    split; [done|]. split; [done|].
    destruct Hcases as [[_ He] | [Hs _]]; [congruence|]. rewrite Hs, Hstep. done.
Qed.

(** X18: in a calm session a reset is complete: wherever it is offered, it
    gives back the state of the first render, with nothing in flight. *)
Theorem reset_restores_initial_when_calm (Number_toString : number -> jsstring)
    (inputs : list App.Input) (l : Loop App.Update App.t) :
  calm Number_toString App.start inputs = true ->
  App.play Number_toString App.start inputs = Some l ->
  App.dashboard_shown (state l) = true ->
  App.react Number_toString l App.ClickReset = Some App.start.
Proof.
  assert (forall inputs l0,
             at_most_one_in_flight l0 ->
             calm Number_toString l0 inputs = true ->
             App.play Number_toString l0 inputs = Some l ->
             at_most_one_in_flight l) as Hinv.
  { clear inputs. intros inputs. induction inputs as [|i rest IH]; intros l0 H0 Hcalm Hplay.
    - cbn in Hplay. by injection Hplay as <-.
    - cbn [calm App.play] in Hcalm, Hplay. apply andb_prop in Hcalm as [Hi Hrest].
      destruct (App.react Number_toString l0 i) as [l1|] eqn:Hreact; [|done].
      apply (IH l1); [|done|done].
      apply (react_at_most_one_in_flight Number_toString l0 l1 i); [done| |done].
      intros ->. cbn in Hi. by destruct (App.isLoading (state l0)). }
  intros Hcalm Hplay Hshown.
  assert (at_most_one_in_flight App.start) as Hstart by (left; done).
  specialize (Hinv inputs App.start Hstart Hcalm Hplay).
  cbn [App.react]. rewrite Hshown. f_equal. rewrite handleReset_state.
  unfold App.dashboard_shown in Hshown. apply andb_prop in Hshown as [Hstep _].
  apply bool_decide_eq_true in Hstep.
  destruct Hinv as [(Hpend & Hload & Herr) | (waiting & _ & _ & _ & _ & Hone)]; [|congruence].
  unfold App.start, App.initial. by rewrite Hpend, Hload, (Herr Hstep).
Qed.

(** One request, answered: the dashboard is shown and the reset gives
    back the first state. *)
Example reset_after_single_request :
  exists l : Loop App.Update App.t,
    App.play toString_safe App.start single_request_session = Some l /\
    App.step (state l) = 3 /\
    App.react toString_safe l App.ClickReset = Some App.start.
Proof.
  destruct (App.play toString_safe App.start single_request_session) as [l|] eqn:Hplay;
    [|vm_compute in Hplay; discriminate].
  exists l. split; [done|].
  assert (App.dashboard_shown (state l) = true /\ App.step (state l) = 3) as [Hshown Hstep].
  { vm_compute in Hplay. injection Hplay as <-. split; vm_compute; reflexivity. }
  split; [done|].
  apply (reset_restores_initial_when_calm toString_safe single_request_session l);
    [|done|done].
  vm_compute. reflexivity.
Defined.

(** ** C8 *)

(** C8 fails on the code.  Two overlapping clicks on Generate, the first
    request rejected and the second answered, bring the dashboard up
    with the error message of the first still stored; the reset is
    offered there, and after it the step, the images, the plan and the
    details are as at the start but the error message is not: the state
    is not the first state. *)
Theorem reset_keeps_stale_error :
  exists (before after : Loop App.Update App.t),
    App.play toString_safe App.start (removelast overlapping_session) = Some before /\
    App.reachable toString_safe before /\
    App.dashboard_shown (state before) = true /\
    App.react toString_safe before App.ClickReset = Some after /\
    App.play toString_safe App.start overlapping_session = Some after /\
    App.step (state after) = 1 /\
    App.images (state after) = [] /\
    App.plan (state after) = None /\
    App.details (state after) = App.defaults /\
    App.error (state after)
      = Some (js "Failed to generate plan. Please try again or check your API Key.") /\
    App.error App.initial = None /\
    state after <> App.initial /\
    calm toString_safe App.start overlapping_session = false.
Proof.
  destruct (App.play toString_safe App.start (removelast overlapping_session))
    as [before|] eqn:Hbefore; [|vm_compute in Hbefore; discriminate].
  exists before, (spawn App.apply App.handleReset before).
  assert (App.dashboard_shown (state before) = true) as Hshown.
  { vm_compute in Hbefore. injection Hbefore as <-. vm_compute. reflexivity. }
  assert (App.error (state before)
          = Some (js "Failed to generate plan. Please try again or check your API Key."))
    as Herr.
  { vm_compute in Hbefore. injection Hbefore as <-. vm_compute. reflexivity. }
  split; [done|]. split; [by eexists|]. split; [done|].
  split; [cbn [App.react]; by rewrite Hshown|].
  split.
  { vm_compute in Hbefore. injection Hbefore as <-. vm_compute. reflexivity. }
  rewrite handleReset_state. cbn [state App.step App.images App.plan App.details App.error].
  do 4 (split; [reflexivity|]).
  split; [exact Herr|]. split; [reflexivity|].
  split; [|vm_compute; reflexivity].
  intros Hsame. apply (f_equal App.error) in Hsame. cbn in Hsame.
  rewrite Herr in Hsame. discriminate.
Qed.

(* ===================================================================== *)
(** * Image intake *)
(* ===================================================================== *)





(** X2: assets are appended as their reads complete, at any step of the
    application and whatever is in flight: after the reads the image
    list is the one before followed by the assets in order of arrival,
    and nothing else has changed.  So a read that ends after a reset
    puts its image into the cleared list. *)
Theorem files_append_in_arrival_order :
  forall (Number_toString : number -> jsstring) (imgs : list ImageAsset)
         (l : Loop App.Update App.t),
    App.play Number_toString l (map App.FileLoaded imgs) =
    Some {| state := {| App.step := App.step (state l);
                        App.isLoading := App.isLoading (state l);
                        App.error := App.error (state l);
                        App.images := App.images (state l) ++ imgs;
                        App.details := App.details (state l);
                        App.plan := App.plan (state l) |};
            pending := pending l |}.
Proof.
  intros toStr imgs. induction imgs as [|img imgs IH]; intros [s waiting]; cbn [map App.play].
  - destruct s. cbn. by rewrite app_nil_r.
  - cbn [App.react]. rewrite IH. cbn. by rewrite <- app_assoc.
Qed.


(* ===================================================================== *)
(** * The application shell: analysis *)
(* ===================================================================== *)

(** The plan call updates no state and sends its one request. *)
Lemma analyzeRenovation_quiet {U : Type} (Number_toString : number -> jsstring) (host : Host)
    (details : PropertyDetails) (images : list ImageAsset) :
  updates (fst (run (U:=U) host (analyzeRenovation Number_toString details images))) = [] /\
  requests (fst (run (U:=U) host (analyzeRenovation Number_toString details images)))
    = [plan_request Number_toString details images].
Proof.
  rewrite run_analyzeRenovation.
  destruct (host _) as [response|reason]; [|done].
  destruct (falsy _); [done|]. by destruct (JSON_parse _).
Qed.

(** X4: a call of [handleAnalysis] that passes its two checks never
    throws and sends one request, built from the details and images of
    the render it was made in.  If the plan call returns, the plan is
    stored, the dashboard step is set and the error cleared; if it
    throws, for whatever reason, one and the same message is stored and
    step and plan stay.  Either way the loading flag ends lowered and
    images and details are untouched. *)
Theorem handleAnalysis_outcome :
  forall (Number_toString : number -> jsstring) (host : Host) (render s : App.t),
    App.images render <> [] ->
    address (App.details render) <> [] ->
    let call := run (U:=App.Update) host
                  (analyzeRenovation Number_toString (App.details render) (App.images render)) in
    let handler := run host (App.handleAnalysis Number_toString render) in
    snd handler = Returned tt /\
    requests (fst handler)
      = [plan_request Number_toString (App.details render) (App.images render)] /\
    apply_events App.apply (fst handler) s =
    match snd call with
    | Returned generatedPlan =>
        {| App.step := 3; App.isLoading := false; App.error := None;
           App.images := App.images s; App.details := App.details s;
           App.plan := Some generatedPlan |}
    | Threw _ =>
        {| App.step := App.step s; App.isLoading := false;
           App.error :=
             Some (js "Failed to generate plan. Please try again or check your API Key.");
           App.images := App.images s; App.details := App.details s;
           App.plan := App.plan s |}
    end.
Proof.
  intros toStr host render s Hi Ha. cbn zeta.
  unfold App.handleAnalysis.
  rewrite bool_decide_eq_false_2 by (by destruct (App.images render)).
  rewrite bool_decide_eq_false_2 by done.
  unfold mbind, prog_bind.
  cbn [App.set perform bind]. cbn [run].
  rewrite run_finally, run_try_catch, run_bind.
  destruct (analyzeRenovation_quiet (U:=App.Update) toStr host
              (App.details render) (App.images render)) as [Hu Hr].
  destruct (run host (analyzeRenovation toStr (App.details render) (App.images render)))
    as [tr [generatedPlan|e]]; cbn [fst snd] in *.
  - cbn [App.set perform bind run fst snd app]. split; [done|].
    split.
    + cbn [requests]. rewrite !requests_app, Hr. done.
    + rewrite apply_events_updates. cbn [updates]. rewrite !updates_app, Hu. done.
  - cbn [App.set perform bind run fst snd app]. split; [done|].
    split.
    + cbn [requests]. rewrite !requests_app, Hr. done.
    + rewrite apply_events_updates. cbn [updates]. rewrite !updates_app, Hu. done.
Qed.

Lemma handleAnalysis_outcome_witness :
  apply_events App.apply
    (fst (run (rejecting QuotaFailure)
            (App.handleAnalysis toString_safe
               {| App.step := 1; App.isLoading := false; App.error := None;
                  App.images := [one_jpeg]; App.details := berlin_details;
                  App.plan := None |})))
    App.initial
  = {| App.step := 1; App.isLoading := false;
       App.error := Some (js "Failed to generate plan. Please try again or check your API Key.");
       App.images := []; App.details := App.defaults; App.plan := None |}.
Proof.
  pose proof (handleAnalysis_outcome toString_safe (rejecting QuotaFailure)
                {| App.step := 1; App.isLoading := false; App.error := None;
                   App.images := [one_jpeg]; App.details := berlin_details;
                   App.plan := None |} App.initial) as H.
  cbn zeta in H. destruct H as (_ & _ & H).
  - discriminate.
  - vm_compute. discriminate.
  - exact H.
Defined.

(** X5: an answer is acted upon whatever has happened since the click.
    The handler raises the loading flag, clears the error and suspends
    on its request; when the promise settles, its continuation writes
    to the state it finds then: for a text that parses, the plan and the
    dashboard step; otherwise the error message.  Nothing cancels it: on
    the state left by a reset it shows the dashboard again. *)
Theorem handleAnalysis_late_answer :
  forall (Number_toString : number -> jsstring) (render s0 : App.t),
    App.images render <> [] ->
    address (App.details render) <> [] ->
    exists k,
      advance App.apply (App.handleAnalysis Number_toString render) s0 =
      ({| App.step := App.step s0; App.isLoading := true; App.error := None;
          App.images := App.images s0; App.details := App.details s0;
          App.plan := App.plan s0 |},
       Await (GenerateContent
                (plan_request Number_toString (App.details render) (App.images render))) k) /\
      forall (s : App.t) (r : Settled GenerateContentResponse),
        advance App.apply (k r) s =
        (match r with
         | Fulfilled response =>
             if falsy (response_text response) then
               {| App.step := App.step s; App.isLoading := false;
                  App.error :=
                    Some (js "Failed to generate plan. Please try again or check your API Key.");
                  App.images := App.images s; App.details := App.details s;
                  App.plan := App.plan s |}
             else
               match JSON_parse (template (response_text response)) with
               | inr value =>
                   {| App.step := 3; App.isLoading := false; App.error := App.error s;
                      App.images := App.images s; App.details := App.details s;
                      App.plan := Some value |}
               | inl _ =>
                   {| App.step := App.step s; App.isLoading := false;
                      App.error :=
                        Some (js "Failed to generate plan. Please try again or check your API Key.");
                      App.images := App.images s; App.details := App.details s;
                      App.plan := App.plan s |}
               end
         | Rejected _ =>
             {| App.step := App.step s; App.isLoading := false;
                App.error :=
                  Some (js "Failed to generate plan. Please try again or check your API Key.");
                App.images := App.images s; App.details := App.details s;
                App.plan := App.plan s |}
         end, Ret tt).
Proof.
  intros toStr render s0 Hi Ha. unfold App.handleAnalysis.
  rewrite bool_decide_eq_false_2 by (by destruct (App.images render)).
  rewrite bool_decide_eq_false_2 by done.
  cbn. eexists. split; [reflexivity|].
  intros s [response|reason]; cbn; [|done].
  destruct (falsy _); cbn; [done|].
  by destruct (JSON_parse _).
Qed.

Lemma handleAnalysis_late_answer_witness :
  exists k,
    snd (advance App.apply
           (App.handleAnalysis toString_safe
              {| App.step := 1; App.isLoading := false; App.error := None;
                 App.images := [one_jpeg]; App.details := berlin_details;
                 App.plan := None |}) App.initial)
    = Await (GenerateContent (plan_request toString_safe berlin_details [one_jpeg])) k /\
    App.step (fst (advance App.apply
                     (k (Fulfilled (text_response (Some sample_plan_text)))) App.initial)) = 3 /\
    App.images (fst (advance App.apply
                       (k (Fulfilled (text_response (Some sample_plan_text)))) App.initial)) = [].
Proof.
  destruct (handleAnalysis_late_answer toString_safe
              {| App.step := 1; App.isLoading := false; App.error := None;
                 App.images := [one_jpeg]; App.details := berlin_details;
                 App.plan := None |} App.initial) as (k & Hadv & Hk).
  - discriminate.
  - vm_compute. discriminate.
  - exists k. rewrite Hadv. split; [reflexivity|].
    rewrite (Hk App.initial (Fulfilled (text_response (Some sample_plan_text)))).
    split; vm_compute; reflexivity.
Defined.

(** X6: the Generate button takes a click exactly on the form with an
    address and at least one image, whether or not a request is already
    loading or in flight.  Every click it takes puts one more handler in
    flight, waiting for the plan service, with the loading flag raised
    and the error cleared; the two checks of [handleAnalysis] never
    fail for a click the button took. *)
Theorem generate_click :
  forall (Number_toString : number -> jsstring) (l : Loop App.Update App.t),
    match App.react Number_toString l App.ClickGenerate with
    | Some l' =>
        App.step (state l) = 1 /\
        address (App.details (state l)) <> [] /\
        App.images (state l) <> [] /\
        state l' =
          {| App.step := 1; App.isLoading := true; App.error := None;
             App.images := App.images (state l); App.details := App.details (state l);
             App.plan := App.plan (state l) |} /\
        exists k,
          pending l' =
          pending l ++
          [Await (GenerateContent
                    (plan_request Number_toString (App.details (state l)) (App.images (state l))))
             k]
    | None =>
        App.step (state l) <> 1 \/
        address (App.details (state l)) = [] \/
        App.images (state l) = []
    end.
Proof.
  intros toStr l. cbn [App.react].
  unfold App.form_shown, App.generate_disabled, Button.disabled.
  destruct (decide (App.step (state l) = 1)) as [Hstep|Hstep];
    [rewrite bool_decide_eq_true_2 by done | rewrite bool_decide_eq_false_2 by done; by left].
  destruct (decide (address (App.details (state l)) = [])) as [Ha|Ha];
    [rewrite bool_decide_eq_true_2 by done; right; by left
    | rewrite bool_decide_eq_false_2 by done].
  destruct (App.images (state l)) as [|img imgs] eqn:Himgs; [right; by right|].
  cbn [length bool_decide orb negb andb].
  rewrite bool_decide_eq_false_2 by done. cbn [orb negb andb].
  destruct (handleAnalysis_late_answer toStr (state l) (state l)) as (k & Hadv & _);
    [by rewrite Himgs | done |].
  unfold spawn. rewrite Hadv. cbn [state pending park suspended].
  rewrite Himgs in *. rewrite Hstep.
  split; [done|]. split; [done|]. split; [done|]. split; [done|]. by exists k.
Qed.

(* ===================================================================== *)
(** * The dashboard: handlers in flight *)
(* ===================================================================== *)

Lemma dashboard_isolation_witness :
  Dashboard.slot
    (state (spawn Dashboard.apply
              (Dashboard.handleGenerateImage plain_window sample_dashboard 1
                 (js "Install a heat pump"))
              {| state := sample_dashboard; pending := [] |})) 0
  = Dashboard.slot sample_dashboard 0 /\
  Dashboard.generatingPhase
    (state (spawn Dashboard.apply
              (Dashboard.handleGenerateImage plain_window sample_dashboard 1
                 (js "Install a heat pump"))
              {| state := sample_dashboard; pending := [] |})) !! 1
  = Some true.
Proof.
  split; [|reflexivity].
  apply (dashboard_isolation plain_window 0
           {| state := sample_dashboard; pending := [] |}
           (spawn Dashboard.apply
              (Dashboard.handleGenerateImage plain_window sample_dashboard 1
                 (js "Install a heat pump"))
              {| state := sample_dashboard; pending := [] |})).
  - apply rtc_once.
    apply (move_image plain_window 0 {| state := sample_dashboard; pending := [] |} 1
             (js "Install a heat pump")).
    discriminate.
  - constructor.
Defined.

(* ===================================================================== *)
(** * The dashboard: the credential check and the handlers, end to end *)
(* ===================================================================== *)

(** X8: how the credential check ends.  It returns false exactly when
    the hook is there, reports no key and the selection dialog is
    rejected; it throws exactly when the hook's own query is rejected;
    and once the dialog resolves it returns true without asking again
    whether a key is now selected. *)
Theorem checkApiKey_outcomes :
  forall (host : Host) (window : Window),
    let check := run host (Dashboard.checkApiKey window) in
    (snd check = Returned false <->
     exists studio reason,
       aistudio window = Some studio /\ has_hasSelectedApiKey studio = true /\
       host HasSelectedApiKey = Fulfilled false /\
       host OpenSelectKey = Rejected reason) /\
    (forall e,
        snd check = Threw e <->
        exists studio reason,
          aistudio window = Some studio /\ has_hasSelectedApiKey studio = true /\
          host HasSelectedApiKey = Rejected reason /\ e = Rejection reason) /\
    (forall studio,
        aistudio window = Some studio -> has_hasSelectedApiKey studio = true ->
        host HasSelectedApiKey = Fulfilled false ->
        host OpenSelectKey = Fulfilled tt ->
        check = ([Called HasSelectedApiKey; Called OpenSelectKey], Returned true)).
Proof.
  intros host window. cbn zeta. rewrite run_checkApiKey.
  split; [|split].
  - split.
    + destruct (aistudio window) as [studio|]; [|done].
      destruct (has_hasSelectedApiKey studio) eqn:Hhas; [|done].
      destruct (host HasSelectedApiKey) as [[|]|reason] eqn:Hq; try done.
      destruct (host OpenSelectKey) as [[]|reason] eqn:Ho; [done|].
      intros _. by exists studio, reason.
    + intros (studio & reason & -> & -> & -> & ->). done.
  - intros e. split.
    + destruct (aistudio window) as [studio|]; [|done].
      destruct (has_hasSelectedApiKey studio) eqn:Hhas; [|done].
      destruct (host HasSelectedApiKey) as [[|]|reason] eqn:Hq; try done.
      * by destruct (host OpenSelectKey) as [[]|reason].
      * intros [= <-]. by exists studio, reason.
    + intros (studio & reason & -> & -> & -> & ->). done.
  - intros studio -> -> -> ->. done.
Qed.

Lemma checkApiKey_outcomes_witness :
  snd (run (rejecting AuthFailure)
         (Dashboard.checkApiKey {| aistudio := Some {| has_hasSelectedApiKey := true |} |}))
  = Threw (Rejection AuthFailure).
Proof.
  destruct (checkApiKey_outcomes (rejecting AuthFailure)
              {| aistudio := Some {| has_hasSelectedApiKey := true |} |}) as (_ & Hthrow & _).
  apply Hthrow. by exists {| has_hasSelectedApiKey := true |}, AuthFailure.
Defined.

(** X9: a handler whose credential check does not return true does
    nothing further: it updates no state, sends no request and shows no
    alert; it returns when the check returned false and throws what the
    check threw. *)
Theorem handlers_declined :
  forall (host : Host) (window : Window) (render : Dashboard.t) (index : nat)
         (name description : jsstring),
    snd (run host (Dashboard.checkApiKey window)) <> Returned true ->
    let image := run host (Dashboard.handleGenerateImage window render index description) in
    let blueprint :=
      run host (Dashboard.handleGenerateBlueprint window render index name description) in
    image = blueprint /\
    updates (fst image) = [] /\
    requests (fst image) = [] /\
    alerts (fst image) = [] /\
    snd image = match snd (run host (Dashboard.checkApiKey window)) with
                | Threw e => Threw e
                | Returned _ => Returned tt
                end.
Proof.
  intros host window render index name description Hcheck. cbn zeta.
  rewrite run_handleGenerateImage, run_handleGenerateBlueprint. cbn zeta.
  destruct (checkApiKey_quiet host window) as (Hu & Hr & Ha).
  destruct (run host (Dashboard.checkApiKey window)) as [tr [[|]|e]]; cbn [fst snd] in *; done.
Qed.

Lemma handlers_declined_witness :
  run (rejecting AuthFailure)
    (Dashboard.handleGenerateImage {| aistudio := Some {| has_hasSelectedApiKey := true |} |}
       sample_dashboard 0 (js "Insulate the facade"))
  = ([Called HasSelectedApiKey], Threw (Rejection AuthFailure)).
Proof.
  pose proof (handlers_declined (rejecting AuthFailure)
                {| aistudio := Some {| has_hasSelectedApiKey := true |} |}
                sample_dashboard 0 (js "Facade") (js "Insulate the facade")) as H.
  cbn zeta in H. destruct H as (_ & _ & _ & _ & H); [discriminate|].
  destruct (run _ (Dashboard.handleGenerateImage _ _ _ _)) as [tr out] eqn:Hrun.
  vm_compute in Hrun. by injection Hrun as <- <-.
Defined.

(** X10: a call of the image handler that passes the credential check
    never throws, whatever the service does, and sends one request, for
    the style and the quality of the render it was made in.  Applied to
    any dashboard, its updates leave the phase's in-progress flag
    lowered and the blueprint maps untouched; if the service call
    returned, its URL is stored for the phase and nobody is alerted; if
    it threw, the images are as they were and one alert is shown. *)
Theorem handleGenerateImage_completed :
  forall (host : Host) (window : Window) (render d : Dashboard.t) (index : nat)
         (description : jsstring),
    snd (run host (Dashboard.checkApiKey window)) = Returned true ->
    let style := buildingStyle (Dashboard.plan render) in
    let call := run (U:=Dashboard.Update) host
                  (generateRenovationImage description style (Dashboard.imageSize render)) in
    let handler := run host (Dashboard.handleGenerateImage window render index description) in
    let d' := apply_events Dashboard.apply (fst handler) d in
    snd handler = Returned tt /\
    requests (fst handler)
      = [image_request (fullPrompt description style) (Dashboard.imageSize render)] /\
    Dashboard.generatingPhase d' = <[index := false]> (Dashboard.generatingPhase d) /\
    Dashboard.blueprints d' = Dashboard.blueprints d /\
    Dashboard.generatingBlueprint d' = Dashboard.generatingBlueprint d /\
    Dashboard.imageSize d' = Dashboard.imageSize d /\
    match snd call with
    | Returned imageUrl =>
        Dashboard.phaseImages d' = <[index := imageUrl]> (Dashboard.phaseImages d) /\
        alerts (fst handler) = []
    | Threw _ =>
        Dashboard.phaseImages d' = Dashboard.phaseImages d /\
        alerts (fst handler)
          = [js "Could not generate image. Please ensure you have a valid paid API key selected."]
    end.
Proof.
  intros host window render d index description Hcheck. cbn zeta.
  rewrite run_handleGenerateImage. cbn zeta.
  destruct (checkApiKey_quiet host window) as (Hu & Hr & Ha).
  destruct (run host (Dashboard.checkApiKey window)) as [tr0 out0]. cbn [fst snd] in *.
  subst out0. cbn [fst snd].
  destruct (generateRenovationImage_quiet host description
              (buildingStyle (Dashboard.plan render)) (Dashboard.imageSize render))
    as (Hcu & Hca & Hcr).
  rewrite apply_events_updates.
  rewrite requests_app, updates_app, alerts_app, Hu, Hr, Ha.
  cbn [app requests updates alerts].
  rewrite requests_app, updates_app, alerts_app, Hcu, Hca, Hcr.
  destruct (snd (run host (generateRenovationImage _ _ _))) as [url|e];
    cbn [app requests updates alerts foldl Dashboard.apply
           Dashboard.generatingPhase Dashboard.blueprints Dashboard.generatingBlueprint
           Dashboard.imageSize Dashboard.phaseImages];
    rewrite insert_insert_eq; done.
Qed.

Lemma handleGenerateImage_completed_witness :
  Dashboard.phaseImages
    (apply_events Dashboard.apply
       (fst (run (answering jpeg_after_text true)
               (Dashboard.handleGenerateImage plain_window sample_dashboard 0
                  (js "Insulate the facade"))))
       sample_dashboard)
  = <[0 := js "data:image/png;base64,/9j/4AAQSkZJRg"]> (Dashboard.phaseImages sample_dashboard).
Proof.
  pose proof (handleGenerateImage_completed (answering jpeg_after_text true) plain_window
                sample_dashboard sample_dashboard 0 (js "Insulate the facade") eq_refl) as H.
  cbn zeta in H. destruct H as (_ & _ & _ & _ & _ & _ & H).
  replace (snd (run (U:=Dashboard.Update) (answering jpeg_after_text true)
                  (generateRenovationImage (js "Insulate the facade")
                     (buildingStyle (Dashboard.plan sample_dashboard))
                     (Dashboard.imageSize sample_dashboard))))
    with (Returned (A:=jsstring) (js "data:image/png;base64,/9j/4AAQSkZJRg")) in H
    by (vm_compute; reflexivity).
  exact (proj1 H).
Defined.

(** X11: the same for the blueprint handler, which always asks for the
    1K quality: one request, the flag lowered, the image maps untouched,
    the blueprint stored on success, and on failure the blueprints as
    they were and one alert. *)
Theorem handleGenerateBlueprint_completed :
  forall (host : Host) (window : Window) (render d : Dashboard.t) (index : nat)
         (name description : jsstring),
    snd (run host (Dashboard.checkApiKey window)) = Returned true ->
    let style := buildingStyle (Dashboard.plan render) in
    let call := run (U:=Dashboard.Update) host
                  (generateBlueprintImage name description style) in
    let handler :=
      run host (Dashboard.handleGenerateBlueprint window render index name description) in
    let d' := apply_events Dashboard.apply (fst handler) d in
    snd handler = Returned tt /\
    requests (fst handler)
      = [image_request (blueprint_fullPrompt name description style) Size1K] /\
    Dashboard.generatingBlueprint d' = <[index := false]> (Dashboard.generatingBlueprint d) /\
    Dashboard.phaseImages d' = Dashboard.phaseImages d /\
    Dashboard.generatingPhase d' = Dashboard.generatingPhase d /\
    Dashboard.imageSize d' = Dashboard.imageSize d /\
    match snd call with
    | Returned imageUrl =>
        Dashboard.blueprints d' = <[index := imageUrl]> (Dashboard.blueprints d) /\
        alerts (fst handler) = []
    | Threw _ =>
        Dashboard.blueprints d' = Dashboard.blueprints d /\
        alerts (fst handler) = [js "Could not generate blueprint."]
    end.
Proof.
  intros host window render d index name description Hcheck. cbn zeta.
  rewrite run_handleGenerateBlueprint. cbn zeta.
  destruct (checkApiKey_quiet host window) as (Hu & Hr & Ha).
  destruct (run host (Dashboard.checkApiKey window)) as [tr0 out0]. cbn [fst snd] in *.
  subst out0. cbn [fst snd].
  destruct (generateBlueprintImage_quiet host name description
              (buildingStyle (Dashboard.plan render))) as (Hcu & Hca & Hcr).
  rewrite apply_events_updates.
  rewrite requests_app, updates_app, alerts_app, Hu, Hr, Ha.
  cbn [app requests updates alerts].
  rewrite requests_app, updates_app, alerts_app, Hcu, Hca, Hcr.
  destruct (snd (run host (generateBlueprintImage _ _ _))) as [url|e];
    cbn [app requests updates alerts foldl Dashboard.apply
           Dashboard.generatingPhase Dashboard.blueprints Dashboard.generatingBlueprint
           Dashboard.imageSize Dashboard.phaseImages];
    rewrite insert_insert_eq; done.
Qed.

Lemma handleGenerateBlueprint_completed_witness :
  Dashboard.blueprints
    (apply_events Dashboard.apply
       (fst (run (rejecting QuotaFailure)
               (Dashboard.handleGenerateBlueprint plain_window sample_dashboard 1
                  (js "Heating") (js "Install a heat pump"))))
       sample_dashboard)
  = Dashboard.blueprints sample_dashboard.
Proof.
  pose proof (handleGenerateBlueprint_completed (rejecting QuotaFailure) plain_window
                sample_dashboard sample_dashboard 1 (js "Heating") (js "Install a heat pump")
                eq_refl) as H.
  cbn zeta in H. destruct H as (_ & _ & _ & _ & _ & _ & H).
  replace (snd (run (U:=Dashboard.Update) (rejecting QuotaFailure)
                  (generateBlueprintImage (js "Heating") (js "Install a heat pump")
                     (buildingStyle (Dashboard.plan sample_dashboard)))))
    with (Threw (A:=jsstring) (Rejection QuotaFailure)) in H
    by (vm_compute; reflexivity).
  exact (proj1 H).
Defined.

(** X12: a click on a phase's Visualize button.  Where the host has no
    credential hook the handler gets as far as the service request in
    the same turn: the phase's in-progress flag is up, so the button,
    which is not passed [disabled], is disabled, and the request is for
    the style and quality of the render.  Where the host has the hook,
    the handler first waits for it, and until it answers the state, and
    with it the button, is as it was before the click. *)
Theorem visualize_click :
  forall (window : Window) (l : Loop Dashboard.Update Dashboard.t) (index : nat)
         (description : jsstring),
    let l' := spawn Dashboard.apply
                (Dashboard.handleGenerateImage window (state l) index description) l in
    match aistudio window with
    | Some {| has_hasSelectedApiKey := true |} =>
        state l' = state l /\
        exists k, pending l' = pending l ++ [Await HasSelectedApiKey k]
    | _ =>
        Dashboard.generatingPhase (state l')
          = <[index := true]> (Dashboard.generatingPhase (state l)) /\
        Button.disabled (Dashboard.generatingPhase (state l') !! index) None = true /\
        Dashboard.phaseImages (state l') = Dashboard.phaseImages (state l) /\
        exists k,
          pending l' = pending l ++
            [Await (GenerateContent
                      (image_request
                         (fullPrompt description (buildingStyle (Dashboard.plan (state l))))
                         (Dashboard.imageSize (state l)))) k]
    end.
Proof.
  intros window l index description. cbn zeta.
  unfold spawn, Dashboard.handleGenerateImage, Dashboard.checkApiKey.
  destruct (aistudio window) as [[[|]]|].
  - cbn. split; [done|]. by eexists.
  - cbn. rewrite lookup_insert_eq. split; [done|]. split; [done|]. split; [done|]. by eexists.
  - cbn. rewrite lookup_insert_eq. split; [done|]. split; [done|]. split; [done|]. by eexists.
Qed.

(** X13: each of the three service functions writes to the console
    exactly when it throws, once, and what it writes is the error it
    throws. *)
Theorem services_log_what_they_throw :
  forall (Number_toString : number -> jsstring) (host : Host)
         (details : PropertyDetails) (images : list ImageAsset)
         (name description style : jsstring) (size : ImageSize),
    let logged {A : Type} (label : jsstring) (r : list (Event unit) * Outcome A) :=
      logs (fst r) = match snd r with
                     | Threw e => [(label, e)]
                     | Returned _ => []
                     end in
    logged (js "Gemini Analysis Failed:")
      (run host (analyzeRenovation Number_toString details images)) /\
    logged (js "Image Generation Failed:")
      (run host (generateRenovationImage description style size)) /\
    logged (js "Blueprint Generation Failed:")
      (run host (generateBlueprintImage name description style)).
Proof.
  intros Number_toString host details images name description style size. cbn zeta.
  rewrite run_analyzeRenovation, run_generateRenovationImage, run_generateBlueprintImage.
  cbn zeta. split; [|split].
  - destruct (host _) as [response|reason]; [|done].
    destruct (falsy _); [done|]. by destruct (JSON_parse _).
  - destruct (host _) as [response|reason]; [|done]. by destruct (first_inline_url _).
  - destruct (host _) as [response|reason]; [|done]. by destruct (first_inline_url _).
Qed.

(** * The cost chart *)

(** A finite number divided by itself is one, whatever its size. *)
Lemma SFdiv_same (s : bool) (m : positive) (e : Z) :
  SFdiv prec64 emax64 (S754_finite s m e) (S754_finite s m e) = Number_of_Z 1.
Proof.
  unfold SFdiv, SFdiv_core_binary.
  replace (Zdigits2 (Z.pos m) + e - (Zdigits2 (Z.pos m) + e))%Z with 0%Z by lia.
  replace (e - e)%Z with 0%Z by lia.
  change (fexp prec64 emax64 0 `min` 0)%Z with (-53)%Z.
  change (0 - -53)%Z with 53%Z. cbv iota beta zeta.
  assert (IntDef.Z.div_eucl (Z.pos m ≪ 53) (Z.pos m) = (2 ^ 53, 0)%Z) as ->.
  { change IntDef.Z.div_eucl with Z.div_eucl.
    pose proof (Z.div_eucl_eq (Z.pos m ≪ 53) (Z.pos m) ltac:(lia)) as Heq.
    pose proof (Z.mod_pos_bound (Z.pos m ≪ 53) (Z.pos m) ltac:(lia)) as Hb.
    unfold Z.modulo in Hb.
    destruct (Z.div_eucl _ _) as [q r].
    rewrite Z.shiftl_mul_pow2 in Heq by lia.
    assert (q = 2 ^ 53)%Z by nia. subst q. f_equal. lia. }
  assert (new_location (Z.pos m) 0 = loc_Exact) as ->.
  { unfold new_location. by destruct (IntDef.Z.even _). }
  by destruct s.
Qed.

(** The highest value is the one the search started from or one of the
    values. *)
Lemma highest_picks (values : list number) (start : number) :
  foldl higher start values = start \/ foldl higher start values ∈ values.
Proof.
  revert start. induction values as [|v values IH]; intros start; [by left|].
  cbn [foldl].
  match goal with |- context [foldl ?f ?a values] => destruct (IH a) as [H|H] end.
  - rewrite H.
    unfold higher.
    destruct v as [[|]| | |], start as [[|]| | |];
      try (right; by left); try (by left);
      destruct (SFltb _ _); (by left) || (right; by left).
  - right. by right.
Qed.

(** X14: in the cost chart, a plan whose highest phase cost is finite
    and not zero has a phase with that cost, and every such phase has a
    bar of exactly 100 percent. *)
Theorem widest_bar_is_full :
  forall (plan : RenovationPlan) (s : bool) (m : positive) (e : Z),
    maxCost plan = S754_finite s m e ->
    (exists phase, phase ∈ phases plan /\ costEstimate phase = maxCost plan) /\
    (forall phase, costEstimate phase = maxCost plan ->
                   widthPercentage plan phase = Number_of_Z 100).
Proof.
  intros plan s m e Hmax. split.
  - unfold maxCost, Math_max in *.
    destruct (existsb is_nan _); [done|].
    destruct (highest_picks (map costEstimate (phases plan)) (S754_infinity true)) as [H|H].
    + congruence.
    + apply list_elem_of_fmap in H as (phase & Hcost & Hin). by exists phase.
  - intros phase Hcost. unfold widthPercentage. rewrite Hcost, Hmax, SFdiv_same.
    by vm_compute.
Qed.

Lemma widest_bar_is_full_witness :
  widthPercentage sample_plan
    {| phase_name := js "Heating"; durationWeeks := Number_of_Z 16;
       costEstimate := Number_of_Z 100000; phase_description := js "Install a heat pump" |}
  = Number_of_Z 100.
Proof.
  refine (proj2 (widest_bar_is_full sample_plan false _ _ _) _ _).
  - vm_compute. reflexivity.
  - vm_compute. reflexivity.
Defined.



(** * The PDF export *)

Section ExportLayout.
Variable splitTextToSize : jsstring -> Z -> list jsstring.
Variable toLocaleString : number -> jsstring.
Variable Number_toString : number -> jsstring.

Let phase_entries := Pdf.phase_entries splitTextToSize toLocaleString Number_toString.

Lemma heights_app (ops ops' : list Pdf.Op) :
  Pdf.heights (ops ++ ops') = Pdf.heights ops ++ Pdf.heights ops'.
Proof. induction ops as [|[] ops IH]; cbn; by rewrite ?IH. Qed.

Lemma saved_app (ops ops' : list Pdf.Op) :
  Pdf.saved (ops ++ ops') = Pdf.saved ops ++ Pdf.saved ops'.
Proof. induction ops as [|[] ops IH]; cbn; by rewrite ?IH. Qed.

Lemma downwards_from_higher (top top' : Z) (ys : list Z) :
  (top <= top')%Z -> Pdf.downwards top' ys = true -> Pdf.downwards top ys = true.
Proof.
  destruct ys as [|y ys]; [done|]. cbn [Pdf.downwards].
  rewrite !andb_true_iff, !Z.leb_le. intros ? []. split; [lia|done].
Qed.

(** The cursor after the phases is where the closed form puts it. *)
Lemma phase_entries_cursor (ps : list RenovationPhase) (i : nat) (yPos : Z) :
  snd (phase_entries i ps yPos) = Pdf.below_phases splitTextToSize ps yPos.
Proof using Type.
  subst phase_entries. revert i yPos. induction ps as [|phase ps IH]; intros i yPos; [done|].
  cbn [Pdf.phase_entries Pdf.phase_entry].
  specialize (IH (S i)).
  match goal with |- context [Pdf.phase_entries _ _ _ (S i) ps ?y] =>
    specialize (IH y); destruct (Pdf.phase_entries _ _ _ (S i) ps y) as [ops' y2] end.
  cbn [snd] in *. rewrite IH. unfold Pdf.below_phases. cbn [foldl]. f_equal. lia.
Qed.

Lemma phase_entries_layout (ps : list RenovationPhase) (i : nat) (yPos : Z) (below : list Z) :
  Pdf.downwards (snd (phase_entries i ps yPos)) below = true ->
  Pdf.downwards yPos (Pdf.heights (fst (phase_entries i ps yPos)) ++ below) = true /\
  length (Pdf.heights (fst (phase_entries i ps yPos))) = 3 * length ps /\
  Pdf.saved (fst (phase_entries i ps yPos)) = [].
Proof using Type.
  subst phase_entries. revert i yPos. induction ps as [|phase ps IH]; intros i yPos; [done|].
  cbn [Pdf.phase_entries Pdf.phase_entry].
  specialize (IH (S i)).
  match goal with |- context [Pdf.phase_entries _ _ _ (S i) ps ?y] =>
    specialize (IH y); destruct (Pdf.phase_entries _ _ _ (S i) ps y) as [ops' y2] end.
  cbn [fst snd] in *. intros Hbelow. destruct (IH Hbelow) as (Hd & Hl & Hs).
  cbn [app Pdf.heights Pdf.saved Pdf.downwards length]. rewrite Hl, Hs.
  split; [|split; [lia|done]].
  rewrite !andb_true_iff, !Z.leb_le. split; [lia|]. split; [lia|]. split; [lia|].
  eapply downwards_from_higher; [|exact Hd]. lia.
Qed.

Lemma funding_entries_layout (fs : list FundingBadge) (yPos : Z) :
  Pdf.downwards yPos (Pdf.heights (fst (Pdf.funding_entries fs yPos))) = true /\
  length (Pdf.heights (fst (Pdf.funding_entries fs yPos))) = length fs /\
  Pdf.saved (fst (Pdf.funding_entries fs yPos)) = [].
Proof.
  revert yPos. induction fs as [|fund fs IH]; intros yPos; [done|].
  cbn [Pdf.funding_entries Pdf.funding_entry].
  specialize (IH (yPos + 6)%Z).
  destruct (Pdf.funding_entries fs (yPos + 6)) as [ops' y2].
  cbn [fst snd] in *. destruct IH as (Hd & Hl & Hs).
  cbn [app Pdf.heights Pdf.saved Pdf.downwards length]. rewrite Hl, Hs.
  split; [|done].
  rewrite !andb_true_iff, !Z.leb_le. split; [lia|].
  eapply downwards_from_higher; [|exact Hd]. lia.
Qed.

Lemma funding_entries_position (fs : list FundingBadge) (yPos : Z) (k : nat)
    (fund : FundingBadge) :
  fs !! k = Some fund ->
  Pdf.text (js "[" ++ funding_name fund ++ js "] " ++ amount fund) 20 (yPos + 6 * Z.of_nat k)
    ∈ fst (Pdf.funding_entries fs yPos).
Proof.
  revert yPos k. induction fs as [|f fs IH]; intros yPos k Hk; [done|].
  cbn [Pdf.funding_entries Pdf.funding_entry].
  destruct k as [|k].
  - injection Hk as ->. destruct (Pdf.funding_entries fs (yPos + 6)) as [ops' y2].
    cbn [fst app]. replace (yPos + 6 * Z.of_nat 0)%Z with yPos by lia.
    do 2 right. by left.
  - specialize (IH (yPos + 6)%Z k Hk).
    destruct (Pdf.funding_entries fs (yPos + 6)) as [ops' y2].
    cbn [fst app] in *.
    replace (yPos + 6 * Z.of_nat (S k))%Z with (yPos + 6 + 6 * Z.of_nat k)%Z by lia.
    by do 4 right.
Qed.

End ExportLayout.

(** X16: the exported document is written from the top down: no text is
    put above the one written before it, whatever lengths the line
    breaker gives.  It has eight fixed texts, three per phase and one
    per funding programme, and is saved once, at the end, as
    [reno-plan.pdf]. *)
Theorem export_reads_downwards :
  forall (splitTextToSize : jsstring -> Z -> list jsstring)
         (toLocaleString Number_toString : number -> jsstring)
         (plan : RenovationPlan) (details : PropertyDetails),
    let ops := Pdf.handleExport splitTextToSize toLocaleString Number_toString plan details in
    Pdf.downwards 20 (Pdf.heights ops) = true /\
    length (Pdf.heights ops) = 8 + 3 * length (phases plan) + length (funding plan) /\
    Pdf.saved ops = [js "reno-plan.pdf"] /\
    last ops = Some (Pdf.save (js "reno-plan.pdf")).
Proof.
  intros splitTextToSize toLocaleString Number_toString plan details. cbn zeta.
  unfold Pdf.handleExport.
  set (n := Z.of_nat (length (splitTextToSize (summary plan) 170%Z))).
  assert (0 <= n)%Z as Hn by lia.
  set (y0 := (70 + n * 5 + 10 + 10)%Z).
  pose proof (phase_entries_layout splitTextToSize toLocaleString Number_toString
                (phases plan) 0 y0) as Hphases.
  pose proof (phase_entries_cursor splitTextToSize toLocaleString Number_toString
                (phases plan) 0 y0) as Hcursor.
  cbn zeta in Hphases, Hcursor.
  destruct (Pdf.phase_entries _ _ _ 0 (phases plan) y0) as [phase_ops y1].
  cbn [fst snd] in *.
  pose proof (funding_entries_layout (funding plan) (y1 + 10 + 10)%Z) as (Hfd & Hfl & Hfs).
  destruct (Pdf.funding_entries (funding plan) (y1 + 10 + 10)) as [funding_ops y3].
  cbn [fst] in *.
  destruct (Hphases ((y1 + 10)%Z :: Pdf.heights funding_ops)) as (Hd & Hl & Hs).
  { cbn [Pdf.downwards]. rewrite andb_true_iff, Z.leb_le. split; [lia|].
    eapply downwards_from_higher; [|exact Hfd]. lia. }
  split; [|split; [|split]].
  - rewrite !heights_app. cbn [app Pdf.heights Pdf.downwards]. rewrite app_nil_r.
    rewrite !andb_true_iff, !Z.leb_le. repeat (split; [lia|]).
    eapply downwards_from_higher; [|exact Hd]. lia.
  - rewrite !heights_app, !length_app. cbn [app Pdf.heights length]. rewrite Hl, Hfl. lia.
  - rewrite !saved_app. cbn [app Pdf.saved]. by rewrite Hs, Hfs.
  - by rewrite !app_assoc, last_snoc.
Qed.

(** X17: where the funding programmes are put.  The heading of the
    funding block is ten below the cursor the phases leave, which is
    [100 + 5 * lines of the summary], plus [11 + 4 * lines of its
    description] for each phase; the [k]-th programme is put ten below
    the heading and six further down for each programme before it. *)
Theorem export_funding_position :
  forall (splitTextToSize : jsstring -> Z -> list jsstring)
         (toLocaleString Number_toString : number -> jsstring)
         (plan : RenovationPlan) (details : PropertyDetails) (k : nat) (fund : FundingBadge),
    funding plan !! k = Some fund ->
    let ops := Pdf.handleExport splitTextToSize toLocaleString Number_toString plan details in
    let cursor :=
      Pdf.below_phases splitTextToSize (phases plan)
        (90 + 5 * Z.of_nat (length (splitTextToSize (summary plan) 170%Z)))%Z in
    Pdf.text (js "Eligible Funding") 20 (cursor + 10) ∈ ops /\
    Pdf.text (js "[" ++ funding_name fund ++ js "] " ++ amount fund) 20
             (cursor + 20 + 6 * Z.of_nat k) ∈ ops.
Proof.
  intros splitTextToSize toLocaleString Number_toString plan details k fund Hk. cbn zeta.
  unfold Pdf.handleExport.
  set (n := Z.of_nat (length (splitTextToSize (summary plan) 170%Z))).
  replace (90 + 5 * n)%Z with (70 + n * 5 + 10 + 10)%Z by lia.
  set (y0 := (70 + n * 5 + 10 + 10)%Z).
  pose proof (phase_entries_cursor splitTextToSize toLocaleString Number_toString
                (phases plan) 0 y0) as Hcursor.
  cbn zeta in Hcursor.
  destruct (Pdf.phase_entries _ _ _ 0 (phases plan) y0) as [phase_ops y1].
  cbn [snd] in Hcursor. subst y1.
  set (cursor := Pdf.below_phases splitTextToSize (phases plan) y0).
  pose proof (funding_entries_position (funding plan) (cursor + 10 + 10)%Z k fund Hk) as Hin.
  destruct (Pdf.funding_entries (funding plan) (cursor + 10 + 10)) as [funding_ops y3].
  cbn [fst] in Hin.
  replace (cursor + 20 + 6 * Z.of_nat k)%Z with (cursor + 10 + 10 + 6 * Z.of_nat k)%Z by lia.
  rewrite !elem_of_app. split.
  - right. right. left. do 2 right. by left.
  - right. right. right. by left.
Qed.

Lemma export_funding_position_witness :
  Pdf.text (js "[KfW 261] Max 150k") 20 145
    ∈ Pdf.handleExport (fun s _ => [s]) toString_safe toString_safe sample_plan berlin_details.
Proof.
  exact (proj2 (export_funding_position (fun s _ => [s]) toString_safe toString_safe
                  sample_plan berlin_details 0
                  {| funding_name := js "KfW 261"; amount := js "Max 150k";
                     funding_description := js "Efficiency loan" |} eq_refl)).
Defined.
